(** * PsyBot: command templates and their permission check

    A shallow embedding of [bin/templates/command.js] (classes
    [DefaultCommand], [DefaultAlias], [CommandProperty]) and of
    [bin/util.js] ([Utils.log]), followed by the properties of the
    permission pipeline.

    Conventions of the embedding:
    - a JavaScript value that the code stores, compares or returns is a
      [Js.Value]; the operators [==], [!=] and truthiness are the
      functions of module [Js];
    - a method that can throw or that talks to the outside world (channel
      send, standard output, store commit) runs in the monad [M]: a trace
      of events together with either an exception or a result;
    - a method that assigns fields of [this] returns the updated record;
    - Discord collections ([member.roles], [guild.roles]) and the records
      of the key-value store are finite maps with string keys. *)

From Stdlib Require Import ZArith String List Bool PrimFloat Lia.
From stdpp Require Import gmap strings.
Import ListNotations.

Local Open Scope string_scope.
Local Open Scope Z_scope.

(* ===================================================================== *)
(** ** JavaScript values and operators *)
(* ===================================================================== *)

Module Js.

(** The values that flow through the two source files: [undefined],
    [null], booleans, strings and arrays (the pair returned by the base
    [run]). *)
#[warnings="-register-all"]
Inductive Value : Type :=
| Undefined
| Null
| Bool (b : bool)
| Str (s : string)
| Arr (elems : list Value).

Inductive Exception : Type :=
| ReferenceError (identifier : string)
| TypeError (property : string).

(** [v == null], which holds of [null] and [undefined] only. *)
Definition is_nullish (v : Value) : bool :=
  match v with
  | Undefined | Null => true
  | _ => false
  end.

(** [if (v)]. *)
Definition truthy (v : Value) : bool :=
  match v with
  | Undefined | Null => false
  | Bool b => b
  | Str s => negb (String.eqb s "")
  | Arr _ => true
  end.

(** [String(v)]; an array joins its elements with commas, [null] and
    [undefined] elements giving the empty string. *)
Fixpoint ToString (v : Value) : string :=
  match v with
  | Undefined => "undefined"
  | Null => "null"
  | Bool true => "true"
  | Bool false => "false"
  | Str s => s
  | Arr elems =>
      (fix join (l : list Value) : string :=
         match l with
         | [] => ""
         | x :: rest =>
             let head := if is_nullish x then "" else ToString x in
             match rest with
             | [] => head
             | _ :: _ => head ++ "," ++ join rest
             end
         end) elems
  end.

Definition ToNumber_bool (b : bool) : float :=
  if b then 1%float else 0%float.

Section LooseEquality.

(** The runtime's conversion of a string to a number (binary64). *)
Variable StringToNumber : string -> float.

(** [v == b] for a boolean [b]: the boolean becomes a number; a
    boolean operand on the left is compared as it is, a string is
    converted to a number, an array is converted to its string first,
    and [null] and [undefined] equal only each other. *)
Definition loose_eq_bool (v : Value) (b : bool) : bool :=
  match v with
  | Undefined | Null => false
  | Bool c => Bool.eqb c b
  | Str s => PrimFloat.eqb (StringToNumber s) (ToNumber_bool b)
  | Arr _ => PrimFloat.eqb (StringToNumber (ToString v)) (ToNumber_bool b)
  end.

End LooseEquality.

End Js.

(* ===================================================================== *)
(** ** The inbound message, as far as the permission check reads it *)
(* ===================================================================== *)

Module Role.
Record t : Type := { id : string; calculatedPosition : Z }.
End Role.

Module Channel.
Record t : Type := { id : string; type : string }.
End Channel.

Module Member.
Record t : Type :=
  { id : string;
    highestRole : Role.t;
    roles : gmap string Role.t }.
End Member.

Module Guild.
Record t : Type := { roles : gmap string Role.t }.
End Guild.

Module Message.
Record t : Type :=
  { channel : Channel.t;
    member : Member.t;
    guild : Guild.t }.
End Message.

(** A rule entry [{type, id, exact}]; [exact] is optional. *)
Module Entry.
Record t : Type :=
  { type : string;
    id : string;
    exact : option bool }.
End Entry.

(* ===================================================================== *)
(** ** Collaborators that live outside the two source files *)
(* ===================================================================== *)

(** [require("../../errors").commands]: the table of error identifiers.
    The table itself is not part of these sources; its six entries are
    taken as given strings. *)
Module Errors.
Record commands : Type :=
  { blacklistedUser : string;
    permissionError : string;
    dmDisabled : string;
    minArgLimit : string;
    maxArgLimit : string;
    notImplemented : string }.
End Errors.

(** [require("../../config")]: only [owner] is read. *)
Module Configuration.
Record t : Type := { owner : string }.
End Configuration.

(** The key-value store collaborator is missing from the sources; the
    code only reaches it through [getDatabase], [_data] and [commit]. *)
Module Database.

(** The value stored under a command name: [{whitelist, blacklist}]. *)
Record Permissions : Type :=
  { whitelist : list Entry.t;
    blacklist : list Entry.t }.

(** Modelled from the spec: the record handed out by [getDatabase], which
    is missing from the sources.  Its [_data] is absent when the store
    could not be read and otherwise maps a command name to its lists. *)
Record Ret : Type := { _data : option (gmap string Permissions) }.

(** Modelled from the spec: the database system, which is missing from the
    sources; it holds one record per database name. *)
Record t : Type := { databases : gmap string Ret }.

(** Modelled from the spec: [getDatabase(name)], which is missing from the
    sources; [undefined] for a name the system does not know. *)
Definition getDatabase (dbSys : t) (name : string) : option Ret :=
  databases dbSys !! name.

(** Modelled from the spec: the record is shared with the store, which is
    missing from the sources, so that writing into [_data] is seen by the
    next [getDatabase]. *)
Definition store (dbSys : t) (name : string) (dbRet : Ret) : t :=
  {| databases := <[name := dbRet]> (databases dbSys) |}.

End Database.

(** The manager is missing from the sources; the code only reaches it
    through [getSystem]. *)
Module Manager.

(** Modelled from the spec: the manager, a registry that is missing from
    the sources and in which systems are looked up by name. *)
Record t : Type := { systems : gmap string Database.t }.

(** Modelled from the spec: [getSystem(name)], which is missing from the
    sources; [undefined] for a name that is not registered. *)
Definition getSystem (mgr : t) (name : string) : option Database.t :=
  systems mgr !! name.

(** Modelled from the spec: the registry after the object registered
    under [name], which is missing from the sources, has changed. *)
Definition setSystem (mgr : t) (name : string) (sys : Database.t) : t :=
  {| systems := <[name := sys]> (systems mgr) |}.

End Manager.

(* ===================================================================== *)
(** ** Effects *)
(* ===================================================================== *)

(** [ErrorReply.error(resp)] is built by a module outside these sources;
    the reply is kept symbolic. *)
Inductive Reply : Type :=
| ErrorReply_error (resp : Js.Value).

Inductive Event : Type :=
| ChannelSend (channelID : string) (content : Reply)
| Stdout (provClass : string) (values : list Js.Value)
| DbCommit (dbRet : Database.Ret).

Definition M (A : Type) : Type := (list Event * (Js.Exception + A))%type.

Definition ret {A : Type} (a : A) : M A := ([], inr a).

Definition throw {A : Type} (e : Js.Exception) : M A := ([], inl e).

Definition emit (ev : Event) : M unit := ([ev], inr tt).

Definition bind {A B : Type} (c : M A) (k : A -> M B) : M B :=
  match c with
  | (tr, inl e) => (tr, inl e)
  | (tr, inr a) => let '(tr', r) := k a in ((tr ++ tr')%list, r)
  end.

Declare Scope js_scope.
Delimit Scope js_scope with js.
Notation "x <- c1 ;; c2" := (bind c1 (fun x => c2))
  (at level 100, c1 at next level, right associativity) : js_scope.
Notation "c1 ;;; c2" := (bind c1 (fun _ => c2))
  (at level 100, right associativity) : js_scope.

(** Reading a property of [o]: a [TypeError] when [o] is [undefined]. *)
Definition member_of {A : Type} (o : option A) (property : string) : M A :=
  match o with
  | Some a => ret a
  | None => throw (Js.TypeError property)
  end.

Definition trace {A : Type} (c : M A) : list Event := fst c.
Definition outcome {A : Type} (c : M A) : Js.Exception + A := snd c.

Definition returns {A : Type} (c : M A) (a : A) : Prop := outcome c = inr a.
Definition throws {A : Type} (c : M A) (e : Js.Exception) : Prop :=
  outcome c = inl e.

(* ===================================================================== *)
(** ** bin/util.js *)
(* ===================================================================== *)

Module Utils.

(** [static log(provClass)]: the label defaults to ["Unknown"]; the
    first argument is then shifted out of [arguments] and the rest goes
    to [console.log].  The time stamp written in front of the label
    comes from the system clock and is not recorded in the event. *)
Definition log (arguments : list Js.Value) : M unit :=
  let provClass :=
    match arguments with
    | a :: _ => a
    | [] => Js.Undefined
    end in
  let provClass :=
    if Js.is_nullish provClass then "Unknown" else Js.ToString provClass in
  emit (Stdout provClass (tl arguments)).

(** [arguments[i]]: [undefined] past the end. *)
Definition argument_at (arguments : list Js.Value) (i : nat) : Js.Value :=
  default Js.Undefined (arguments !! i).

(** [for (var i = 0; i < arguments.length; i++)
      arguments[i] = arguments[i + 1];]
    with [count] iterations left and the index at [i]. *)
Fixpoint shift_loop (count i : nat) (arguments : list Js.Value)
  : list Js.Value :=
  match count with
  | O => arguments
  | S count =>
      shift_loop count (S i) (<[i := argument_at arguments (S i)]> arguments)
  end.

(** The loop followed by [arguments.length = arguments.length - 1]: what
    [...arguments] then spreads into [console.log].  A length of [-1]
    spreads nothing. *)
Definition shift_arguments (arguments : list Js.Value) : list Js.Value :=
  take (List.length arguments - 1)
    (shift_loop (List.length arguments) 0 arguments).

End Utils.

(* ===================================================================== *)
(** ** bin/templates/command.js: CommandProperty *)
(* ===================================================================== *)

Module CommandProperty.

(** The fields assigned by the constructor, and [_manager], which
    [_updatePermissions] reads: no method of the class assigns it, so it is
    [undefined] ([None]) unless a caller stores a manager into the object
    from outside. *)
Record t : Type :=
  { _manager : option Manager.t;
    _command : string;
    _minArgs : Z;
    _maxArgs : Z;
    _allowDM : bool;
    _fixedPermissions : bool;
    _whitelist : list Entry.t;
    _blacklist : list Entry.t;
    _useWhitelist : bool }.

Definition constructor (Config : Configuration.t) (commandName : string) : t :=
  {| _manager := None;
     _command := commandName;
     _minArgs := -1;
     _maxArgs := -1;
     _allowDM := true;
     _fixedPermissions := true;
     _whitelist :=
       [ {| Entry.type := "user";
            Entry.id := Configuration.owner Config;
            Entry.exact := None |} ];
     _blacklist := [];
     _useWhitelist := true |}.

Definition setArgs (this : t) (min max : Z) : t :=
  {| _manager := _manager this; _command := _command this;
     _minArgs := min; _maxArgs := max;
     _allowDM := _allowDM this; _fixedPermissions := _fixedPermissions this;
     _whitelist := _whitelist this; _blacklist := _blacklist this;
     _useWhitelist := _useWhitelist this |}.

Definition noArgs (this : t) : t :=
  {| _manager := _manager this; _command := _command this;
     _minArgs := -1; _maxArgs := -1;
     _allowDM := _allowDM this; _fixedPermissions := _fixedPermissions this;
     _whitelist := _whitelist this; _blacklist := _blacklist this;
     _useWhitelist := _useWhitelist this |}.

Definition allowDM (this : t) (dm : bool) : t :=
  {| _manager := _manager this; _command := _command this;
     _minArgs := _minArgs this; _maxArgs := _maxArgs this;
     _allowDM := dm; _fixedPermissions := _fixedPermissions this;
     _whitelist := _whitelist this; _blacklist := _blacklist this;
     _useWhitelist := _useWhitelist this |}.

Definition setFixedPermissions (this : t) (val : bool) : t :=
  {| _manager := _manager this; _command := _command this;
     _minArgs := _minArgs this; _maxArgs := _maxArgs this;
     _allowDM := _allowDM this; _fixedPermissions := val;
     _whitelist := _whitelist this; _blacklist := _blacklist this;
     _useWhitelist := _useWhitelist this |}.

Definition forceWhitelist (this : t) (val : bool) : t :=
  {| _manager := _manager this; _command := _command this;
     _minArgs := _minArgs this; _maxArgs := _maxArgs this;
     _allowDM := _allowDM this; _fixedPermissions := _fixedPermissions this;
     _whitelist := _whitelist this; _blacklist := _blacklist this;
     _useWhitelist := val |}.

(** The assignments [this._whitelist = w; this._blacklist = b], together
    with the manager through which the store was reached. *)
Definition assign_lists (this : t) (mgr : option Manager.t)
    (w b : list Entry.t) : t :=
  {| _manager := mgr; _command := _command this;
     _minArgs := _minArgs this; _maxArgs := _maxArgs this;
     _allowDM := _allowDM this; _fixedPermissions := _fixedPermissions this;
     _whitelist := w; _blacklist := b;
     _useWhitelist := _useWhitelist this |}.

Definition log_label (this : t) : Js.Value :=
  Js.Str ("CommandProperty " ++ _command this).

(** [_updatePermissions()]: returns the updated [this] and the value of
    the call ([false] on the early return, [undefined] at the end). *)
Definition _updatePermissions (this : t) : M (t * Js.Value) :=
  (mgr <- member_of (_manager this) "getSystem" ;;
   dbSys <- member_of (Manager.getSystem mgr "Database") "getDatabase" ;;
   dbRet <- member_of (Database.getDatabase dbSys "cmd_lists") "_data" ;;
   match Database._data dbRet with
   | None =>
       let this := assign_lists this (_manager this) [] (_blacklist this) in
       Utils.log [log_label this;
                  Js.Str "Failed to load whitelist database"] ;;;
       ret (this, Js.Bool false)
   | Some db =>
       state <-
         match db !! _command this with
         | None =>
             let db :=
               <[_command this :=
                   {| Database.whitelist := _whitelist this;
                      Database.blacklist := _blacklist this |}]> db in
             let dbRet := {| Database._data := Some db |} in
             Utils.log [log_label this;
                        Js.Str "Permission data does not exist, creating with default permissions."] ;;;
             emit (DbCommit dbRet) ;;;
             ret (db,
                  Manager.setSystem mgr "Database"
                    (Database.store dbSys "cmd_lists" dbRet))
         | Some _ => ret (db, mgr)
         end ;;
       perms <- member_of (fst state !! _command this) "whitelist" ;;
       let this :=
         assign_lists this (Some (snd state))
           (Database.whitelist perms) (Database.blacklist perms) in
       Utils.log [log_label this; Js.Str "Loaded permissions data"] ;;;
       ret (this, Js.Undefined)
   end)%js.

(** [finish()]: the updated [this]; the call itself returns [undefined]. *)
Definition finish (this : t) : M t :=
  (r <- _updatePermissions this ;; ret (fst r))%js.

(** The chained configuration calls of the class. *)
Inductive Setter : Type :=
| SetArgs (min max : Z)
| NoArgs
| AllowDM (dm : bool)
| SetFixedPermissions (val : bool)
| ForceWhitelist (val : bool).

Definition call (this : t) (s : Setter) : t :=
  match s with
  | SetArgs min max => setArgs this min max
  | NoArgs => noArgs this
  | AllowDM dm => allowDM this dm
  | SetFixedPermissions val => setFixedPermissions this val
  | ForceWhitelist val => forceWhitelist this val
  end.

Definition chain (this : t) (calls : list Setter) : t :=
  fold_left call calls this.

End CommandProperty.

(* ===================================================================== *)
(** ** bin/templates/command.js: DefaultCommand *)
(* ===================================================================== *)

Module DefaultCommand.

(** An instance: the constructor's fields and the [run] the instance
    answers to (the base [run] below, or a subclass's override). *)
Record t : Type :=
  { _manager : Manager.t;
    _isAlias : bool;
    _aliases : list string;
    _name : string;
    _properties : CommandProperty.t;
    run : Message.t -> list string -> M Js.Value }.

Section Tables.

Variable ErrorStrings : Errors.commands.

(** The base [run(message, args)]. *)
Definition run_base (message : Message.t) (args : list string) : M Js.Value :=
  ret (Js.Arr [Js.Bool false; Js.Str (Errors.notImplemented ErrorStrings)]).

Definition constructor (mgr : Manager.t) (properties : CommandProperty.t)
    (name : string) : t :=
  {| _manager := mgr;
     _isAlias := false;
     _aliases := [];
     _name := name;
     _properties := properties;
     run := run_base |}.

(** Body of the blacklist loop: the [switch] on [entry.type].  Each
    [break] leaves the [switch] only, so the loop goes on to the next
    entry with the value assigned so far. *)
Definition blacklist_case (userID channelID : string)
    (isBlacklisted : Js.Value) (entry : Entry.t) : Js.Value :=
  if String.eqb (Entry.type entry) "user" then
    if String.eqb userID (Entry.id entry)
    then Js.Str (Errors.blacklistedUser ErrorStrings)
    else isBlacklisted
  else if String.eqb (Entry.type entry) "channel" then
    if String.eqb channelID (Entry.id entry)
    then Js.Bool false
    else isBlacklisted
  else isBlacklisted.

(** [for (let item in props._blacklist)], from [isBlacklisted = null]. *)
Definition blacklist_loop (message : Message.t) (blacklist : list Entry.t)
  : Js.Value :=
  fold_left
    (blacklist_case (Member.id (Message.member message))
                    (Channel.id (Message.channel message)))
    blacklist Js.Null.

(** [isWhitelisted] holds [null] ([None]) or a boolean. *)
Definition flag_truthy (flag : option bool) : bool :=
  match flag with
  | Some b => b
  | None => false
  end.

(** [flag != true] *)
Definition flag_ne_true (flag : option bool) : bool :=
  negb (flag_truthy flag).

(** [roles.get(id) != null] *)
Definition has_role (roles : gmap string Role.t) (id : string) : bool :=
  match roles !! id with
  | Some _ => true
  | None => false
  end.

(** [lowRole == null || lowRole.calculatedPosition >
    highRole.calculatedPosition], with [lowRole = roles.get(id)]. *)
Definition unresolved_or_above (roles : gmap string Role.t) (id : string)
    (highRole : Role.t) : bool :=
  match roles !! id with
  | None => true
  | Some lowRole =>
      Role.calculatedPosition lowRole >? Role.calculatedPosition highRole
  end.

(** Body of the whitelist loop after the early-exit test: the [switch] on
    [entry.type]. *)
Definition whitelist_case (message : Message.t)
    (isWhitelisted : option bool) (entry : Entry.t) : option bool :=
  let userID := Member.id (Message.member message) in
  let roles := Member.roles (Message.member message) in
  let highRole := Member.highestRole (Message.member message) in
  if String.eqb (Entry.type entry) "user" then
    if String.eqb (Entry.id entry) userID then Some true else isWhitelisted
  else if String.eqb (Entry.type entry) "role" then
    if flag_truthy (Entry.exact entry) then
      if has_role roles (Entry.id entry) then Some true else isWhitelisted
    else
      if negb (unresolved_or_above (Guild.roles (Message.guild message))
                 (Entry.id entry) highRole)
      then Some true
      else isWhitelisted
  else isWhitelisted.

(** [for (let item in props._whitelist)], with [if (isWhitelisted) break]
    at the head of the body. *)
Fixpoint whitelist_loop (message : Message.t) (whitelist : list Entry.t)
    (isWhitelisted : option bool) : option bool :=
  match whitelist with
  | [] => isWhitelisted
  | entry :: rest =>
      if flag_truthy isWhitelisted then isWhitelisted
      else whitelist_loop message rest
             (whitelist_case message isWhitelisted entry)
  end.

(** The four checks of [checkProperties], in the order of the source.
    Each gives [Some v] when it makes the method return [v]. *)
Definition blacklist_check (props : CommandProperty.t) (message : Message.t)
  : option Js.Value :=
  let isBlacklisted :=
    blacklist_loop message (CommandProperty._blacklist props) in
  if negb (Js.is_nullish isBlacklisted) then Some isBlacklisted else None.

Definition whitelist_check (props : CommandProperty.t) (message : Message.t)
  : option Js.Value :=
  if CommandProperty._useWhitelist props then
    let isWhitelisted :=
      whitelist_loop message (CommandProperty._whitelist props) None in
    if flag_ne_true isWhitelisted
    then Some (Js.Str (Errors.permissionError ErrorStrings))
    else None
  else None.

Definition channel_type_check (props : CommandProperty.t)
    (message : Message.t) : option Js.Value :=
  if negb (CommandProperty._allowDM props)
     && String.eqb (Channel.type (Message.channel message)) "dm"
  then Some (Js.Str (Errors.dmDisabled ErrorStrings))
  else None.

Definition argument_limits (props : CommandProperty.t) (args : list string)
  : option Js.Value :=
  let length := Z.of_nat (List.length args) in
  if negb (CommandProperty._minArgs props =? -1)
     && (CommandProperty._minArgs props >? length)
  then Some (Js.Str (Errors.minArgLimit ErrorStrings))
  else if negb (CommandProperty._maxArgs props =? -1)
          && (CommandProperty._maxArgs props <? length)
  then Some (Js.Str (Errors.maxArgLimit ErrorStrings))
  else None.

(** [checkProperties(message, args)] of the base class. *)
Definition checkProperties (this : t) (message : Message.t)
    (args : list string) : Js.Value :=
  let props := _properties this in
  match blacklist_check props message with
  | Some isBlacklisted => isBlacklisted
  | None =>
  match whitelist_check props message with
  | Some error => error
  | None =>
  match channel_type_check props message with
  | Some error => error
  | None =>
  match argument_limits props args with
  | Some error => error
  | None => Js.Bool true
  end end end end.

End Tables.

(** *** The free identifier in [exec] *)

(** A function stored on the global object. *)
Definition GlobalFunction : Type :=
  Message.t -> list string -> M Js.Value.

(** The names bound around the body of [exec]: its parameters and local,
    then the bindings of the module ([const]s, classes and the names Node
    passes to every module). *)
Definition exec_bindings : list string :=
  ["message"; "args"; "resp"].

Definition module_bindings : list string :=
  ["Config"; "ErrorStrings"; "Utils"; "ErrorReply";
   "DefaultCommand"; "DefaultAlias"; "CommandProperty";
   "exports"; "require"; "module"; "__filename"; "__dirname"].

(** Calling the plain identifier [name]: none of the enclosing bindings is
    a function; a name bound by none of them is looked up on the global
    object, and is a [ReferenceError] when it is not there either.  A
    method of the class is not in scope under its bare name. *)
Definition call_identifier (globalThis : gmap string GlobalFunction)
    (name : string) (message : Message.t) (args : list string)
  : M Js.Value :=
  if existsb (String.eqb name) (exec_bindings ++ module_bindings)%list
  then throw (Js.TypeError name)
  else
    match globalThis !! name with
    | Some f => f message args
    | None => throw (Js.ReferenceError name)
    end.

Section Exec.

Variable StringToNumber : string -> float.
Variable globalThis : gmap string GlobalFunction.

(** [exec(message, args)].  The callee of the first statement is written
    [checkProperties], not [this.checkProperties]. *)
Definition exec (this : t) (message : Message.t) (args : list string)
  : M Js.Value :=
  (resp <- call_identifier globalThis "checkProperties" message args ;;
   if Js.loose_eq_bool StringToNumber resp true then
     run this message args
   else
     (if negb (Js.loose_eq_bool StringToNumber resp false)
      then emit (ChannelSend (Channel.id (Message.channel message))
                   (ErrorReply_error resp))
      else ret tt) ;;;
     ret (Js.Bool false))%js.

End Exec.

End DefaultCommand.

(* ===================================================================== *)
(** ** bin/templates/command.js: DefaultAlias *)
(* ===================================================================== *)

Module DefaultAlias.

Record t : Type :=
  { _name : string;
    _isAlias : bool;
    _link : DefaultCommand.t }.

Definition constructor (name : string) (link : DefaultCommand.t) : t :=
  {| _name := name; _isAlias := true; _link := link |}.

(** [exec(message, args)]: the call to the link is an expression
    statement; the method has no [return], so a call that completes
    evaluates to [undefined]. *)
Definition exec (StringToNumber : string -> float)
    (globalThis : gmap string DefaultCommand.GlobalFunction)
    (this : t) (message : Message.t) (args : list string) : M Js.Value :=
  (DefaultCommand.exec StringToNumber globalThis (_link this) message args ;;;
   ret Js.Undefined)%js.

End DefaultAlias.

(* ===================================================================== *)
(** ** Notions used in the statements *)
(* ===================================================================== *)

(** The types the two scans have a [case] for. *)
Definition blacklist_recognizes (entry : Entry.t) : bool :=
  String.eqb (Entry.type entry) "user"
  || String.eqb (Entry.type entry) "channel".

Definition whitelist_recognizes (entry : Entry.t) : bool :=
  String.eqb (Entry.type entry) "user"
  || String.eqb (Entry.type entry) "role".

Definition with_properties (this : DefaultCommand.t)
    (props : CommandProperty.t) : DefaultCommand.t :=
  {| DefaultCommand._manager := DefaultCommand._manager this;
     DefaultCommand._isAlias := DefaultCommand._isAlias this;
     DefaultCommand._aliases := DefaultCommand._aliases this;
     DefaultCommand._name := DefaultCommand._name this;
     DefaultCommand._properties := props;
     DefaultCommand.run := DefaultCommand.run this |}.

(** The same command with the entries of unrecognized type taken out of
    both lists. *)
Definition drop_unrecognized (this : DefaultCommand.t) : DefaultCommand.t :=
  let props := DefaultCommand._properties this in
  with_properties this
    (CommandProperty.assign_lists props (CommandProperty._manager props)
       (List.filter whitelist_recognizes (CommandProperty._whitelist props))
       (List.filter blacklist_recognizes (CommandProperty._blacklist props))).

(** A blacklist entry of type [type] whose id is [id]. *)
Definition lists (entries : list Entry.t) (type id : string) : Prop :=
  exists entry, In entry entries
                /\ Entry.type entry = type /\ Entry.id entry = id.

(** The two values the blacklist scan can assign. *)
Definition verdict (ErrorStrings : Errors.commands) (v : Js.Value) : Prop :=
  v = Js.Bool false \/ v = Js.Str (Errors.blacklistedUser ErrorStrings).

(* ===================================================================== *)
(** ** A small guild, used to run the embedding *)
(* ===================================================================== *)

Module Sample.

Definition errors : Errors.commands :=
  {| Errors.blacklistedUser := "You are blacklisted from this command.";
     Errors.permissionError := "You do not have permission.";
     Errors.dmDisabled := "This command is disabled in DMs.";
     Errors.minArgLimit := "Not enough arguments.";
     Errors.maxArgLimit := "Too many arguments.";
     Errors.notImplemented := "Not implemented." |}.

Definition config : Configuration.t := {| Configuration.owner := "1000" |}.

Definition everyone : Role.t :=
  {| Role.id := "1"; Role.calculatedPosition := 0 |}.
Definition helper : Role.t :=
  {| Role.id := "2"; Role.calculatedPosition := 3 |}.
Definition moderator : Role.t :=
  {| Role.id := "3"; Role.calculatedPosition := 7 |}.

Definition guild : Guild.t :=
  {| Guild.roles := <["1" := everyone]> (<["2" := helper]>
                      (<["3" := moderator]> ∅)) |}.

Definition general : Channel.t :=
  {| Channel.id := "500"; Channel.type := "text" |}.

(** The owner, a member holding [helper]. *)
Definition owner : Member.t :=
  {| Member.id := "1000";
     Member.highestRole := helper;
     Member.roles := <["1" := everyone]> (<["2" := helper]> ∅) |}.

Definition message : Message.t :=
  {| Message.channel := general;
     Message.member := owner;
     Message.guild := guild |}.

Definition user_entry (id : string) : Entry.t :=
  {| Entry.type := "user"; Entry.id := id; Entry.exact := None |}.
Definition channel_entry (id : string) : Entry.t :=
  {| Entry.type := "channel"; Entry.id := id; Entry.exact := None |}.
Definition role_entry (id : string) (exact : bool) : Entry.t :=
  {| Entry.type := "role"; Entry.id := id; Entry.exact := Some exact |}.

Definition manager : Manager.t := {| Manager.systems := ∅ |}.

(** The constructor's defaults: only the owner is whitelisted. *)
Definition defaults : CommandProperty.t :=
  CommandProperty.constructor config "ping".

Definition with_blacklist (props : CommandProperty.t)
    (blacklist : list Entry.t) : CommandProperty.t :=
  CommandProperty.assign_lists props (CommandProperty._manager props)
    (CommandProperty._whitelist props) blacklist.

Definition with_whitelist (props : CommandProperty.t)
    (whitelist : list Entry.t) : CommandProperty.t :=
  CommandProperty.assign_lists props (CommandProperty._manager props)
    whitelist (CommandProperty._blacklist props).

Definition command (props : CommandProperty.t) : DefaultCommand.t :=
  DefaultCommand.constructor errors manager props "ping".

(** The channel of the message is blacklisted; the owner is whitelisted. *)
Definition channel_blocked : CommandProperty.t :=
  with_blacklist defaults [channel_entry "500"].

(** The owner is blacklisted, and after that the channel. *)
Definition user_then_channel : CommandProperty.t :=
  with_blacklist defaults [user_entry "1000"; channel_entry "500"].

(** Default-deny with nothing whitelisted, the channel blacklisted. *)
Definition nobody_allowed : CommandProperty.t :=
  with_whitelist channel_blocked [].

Definition two_to_four : CommandProperty.t :=
  CommandProperty.setArgs defaults 2 4.

(** A store whose ["cmd_lists"] database could not be read, and a
    property object into which a manager was stored from outside. *)
Definition unreadable_store : Database.t :=
  {| Database.databases :=
       <["cmd_lists" := {| Database._data := None |}]> ∅ |}.

Definition wired_manager : Manager.t :=
  {| Manager.systems := <["Database" := unreadable_store]> ∅ |}.

Definition wired : CommandProperty.t :=
  CommandProperty.assign_lists
    (CommandProperty.setFixedPermissions defaults false)
    (Some wired_manager)
    (CommandProperty._whitelist defaults)
    (CommandProperty._blacklist defaults).

(** A global object on which some other script has stored a function
    [checkProperties] that lets every call through. *)
Definition permissive_global : gmap string DefaultCommand.GlobalFunction :=
  <["checkProperties" := fun _ _ => ret (Js.Bool true)]> ∅.

Definition alias : DefaultAlias.t :=
  DefaultAlias.constructor "p" (command defaults).

End Sample.

(** The same command with other lists. *)
Definition with_lists (this : DefaultCommand.t)
    (whitelist blacklist : list Entry.t) : DefaultCommand.t :=
  let props := DefaultCommand._properties this in
  with_properties this
    (CommandProperty.assign_lists props (CommandProperty._manager props)
       whitelist blacklist).

(** The entry sets the flag of the whitelist scan. *)
Definition grants (message : Message.t) (entry : Entry.t) : Prop :=
  DefaultCommand.whitelist_case message None entry = Some true.

(** The argument count is inside the bounds that are set. *)
Definition within_limits (props : CommandProperty.t) (count : nat) : Prop :=
  (CommandProperty._minArgs props = -1
   \/ CommandProperty._minArgs props <= Z.of_nat count)
  /\ (CommandProperty._maxArgs props = -1
      \/ Z.of_nat count <= CommandProperty._maxArgs props).

(** The three log lines of [_updatePermissions]. *)
Definition log_line (this : CommandProperty.t) (text : string) : Event :=
  Stdout ("CommandProperty " ++ CommandProperty._command this) [Js.Str text].

Definition failure_line (this : CommandProperty.t) : Event :=
  log_line this "Failed to load whitelist database".

Definition created_line (this : CommandProperty.t) : Event :=
  log_line this
    "Permission data does not exist, creating with default permissions.".

Definition loaded_line (this : CommandProperty.t) : Event :=
  log_line this "Loaded permissions data".

Definition is_commit (ev : Event) : bool :=
  match ev with
  | DbCommit _ => true
  | _ => false
  end.

(** Stores and a direct-message channel, used to run the embedding. *)
Module SampleStore.

Definition manager_of (dbSys : Database.t) : Manager.t :=
  {| Manager.systems := <["Database" := dbSys]> ∅ |}.

Definition holding (data : option (gmap string Database.Permissions))
  : Database.t :=
  {| Database.databases :=
       <["cmd_lists" := {| Database._data := data |}]> ∅ |}.

(** The defaults of ["ping"], with a manager stored from outside. *)
Definition wired_to (dbSys : Database.t) : CommandProperty.t :=
  CommandProperty.assign_lists
    (CommandProperty.setFixedPermissions Sample.defaults false)
    (Some (manager_of dbSys))
    (CommandProperty._whitelist Sample.defaults)
    (CommandProperty._blacklist Sample.defaults).

Definition persisted : Database.Permissions :=
  {| Database.whitelist := [Sample.role_entry "3" false];
     Database.blacklist := [Sample.user_entry "1000"] |}.

(** A readable store without a record for ["ping"], and one with it. *)
Definition fresh : Database.t := holding (Some ∅).
Definition filled : Database.t := holding (Some (<["ping" := persisted]> ∅)).

Definition direct : Channel.t :=
  {| Channel.id := "900"; Channel.type := "dm" |}.

Definition direct_message : Message.t :=
  {| Message.channel := direct;
     Message.member := Sample.owner;
     Message.guild := Sample.guild |}.


Definition owner_blacklisted : CommandProperty.t :=
  Sample.with_blacklist Sample.defaults [Sample.user_entry "1000"].

(** The conversion of a string to a number on the strings used here: the
    empty string and ["0"] are zero, ["1"] is one, and a word is not a
    number. *)
Definition to_number (s : string) : float :=
  if String.eqb s "" || String.eqb s "0" then 0%float
  else if String.eqb s "1" then 1%float
  else PrimFloat.nan.

(** A global [checkProperties] that refuses with a code. *)
Definition refusing_global : gmap string DefaultCommand.GlobalFunction :=
  <["checkProperties" := fun _ _ => ret (Js.Str "denied")]> ∅.

End SampleStore.

(* ===================================================================== *)
(** ** The blacklist scan *)
(* ===================================================================== *)

Section BlacklistScan.

Variable ErrorStrings : Errors.commands.
Variables userID channelID : string.

Local Abbreviation step :=
  (DefaultCommand.blacklist_case ErrorStrings userID channelID).
Local Abbreviation blacklisted_user :=
  (Js.Str (Errors.blacklistedUser ErrorStrings)).

Local Abbreviation verdict := (verdict ErrorStrings).

Lemma verdict_not_nullish v : verdict v -> Js.is_nullish v = false.
Proof. intros [-> | ->]; reflexivity. Qed.

Lemma verdict_not_true v : verdict v -> v <> Js.Bool true.
Proof. intros [-> | ->]; discriminate. Qed.

Lemma blacklist_case_cases acc entry :
  step acc entry = acc
  \/ (Entry.type entry = "user" /\ Entry.id entry = userID
      /\ step acc entry = blacklisted_user)
  \/ (Entry.type entry = "channel" /\ Entry.id entry = channelID
      /\ step acc entry = Js.Bool false).
Proof.
  unfold DefaultCommand.blacklist_case.
  destruct (String.eqb_spec (Entry.type entry) "user") as [Hu | Hu].
  - destruct (String.eqb_spec userID (Entry.id entry)) as [Hi | Hi]; auto.
  - destruct (String.eqb_spec (Entry.type entry) "channel") as [Hc | Hc]; auto.
    destruct (String.eqb_spec channelID (Entry.id entry)) as [Hi | Hi]; auto.
Qed.

Lemma blacklist_case_verdict acc entry :
  verdict acc -> verdict (step acc entry).
Proof.
  intros Hacc.
  destruct (blacklist_case_cases acc entry) as [-> | [(_ & _ & ->) | (_ & _ & ->)]];
    [assumption | right | left]; reflexivity.
Qed.

Lemma blacklist_fold_verdict entries : forall acc,
  verdict acc -> verdict (fold_left step entries acc).
Proof.
  induction entries as [| entry rest IH]; intros acc Hacc; simpl.
  - exact Hacc.
  - apply IH, blacklist_case_verdict, Hacc.
Qed.

Lemma blacklist_case_channel acc entry :
  Entry.type entry = "channel" -> Entry.id entry = channelID ->
  step acc entry = Js.Bool false.
Proof.
  intros Ht Hi. unfold DefaultCommand.blacklist_case.
  rewrite Ht, Hi. simpl. now rewrite String.eqb_refl.
Qed.

Lemma blacklist_case_user acc entry :
  Entry.type entry = "user" -> Entry.id entry = userID ->
  step acc entry = blacklisted_user.
Proof.
  intros Ht Hi. unfold DefaultCommand.blacklist_case.
  rewrite Ht, Hi. simpl. now rewrite String.eqb_refl.
Qed.

(** A listed channel leaves the scan with a verdict, whatever came
    before it. *)
Lemma blacklist_fold_channel entries : forall acc,
  lists entries "channel" channelID ->
  verdict (fold_left step entries acc).
Proof.
  induction entries as [| entry rest IH]; intros acc (e & Hin & Ht & Hi).
  - destruct Hin.
  - simpl. destruct Hin as [-> | Hin].
    + apply blacklist_fold_verdict. left.
      now apply blacklist_case_channel.
    + apply IH. now exists e.
Qed.

Lemma blacklist_fold_user entries : forall acc,
  lists entries "user" userID ->
  verdict (fold_left step entries acc).
Proof.
  induction entries as [| entry rest IH]; intros acc (e & Hin & Ht & Hi).
  - destruct Hin.
  - simpl. destruct Hin as [-> | Hin].
    + apply blacklist_fold_verdict. right.
      now apply blacklist_case_user.
    + apply IH. now exists e.
Qed.

Lemma lists_tail entry rest type id :
  ~ lists (entry :: rest) type id -> ~ lists rest type id.
Proof.
  intros Hn (e & Hin & H). apply Hn. exists e. split; [now right | exact H].
Qed.

Lemma lists_head entry rest type id :
  ~ lists (entry :: rest) type id ->
  ~ (Entry.type entry = type /\ Entry.id entry = id).
Proof.
  intros Hn H. apply Hn. exists entry. split; [now left | exact H].
Qed.

(** Without a listed user, the scan cannot end on the user's code. *)
Lemma blacklist_fold_no_user entries : forall acc,
  ~ lists entries "user" userID ->
  acc = Js.Null \/ acc = Js.Bool false ->
  fold_left step entries acc = Js.Null
  \/ fold_left step entries acc = Js.Bool false.
Proof.
  induction entries as [| entry rest IH]; intros acc Hn Hacc; simpl.
  - exact Hacc.
  - apply IH; [now apply lists_tail in Hn |].
    destruct (blacklist_case_cases acc entry)
      as [-> | [(Ht & Hi & _) | (_ & _ & ->)]].
    + exact Hacc.
    + exfalso. apply (lists_head _ _ _ _ Hn). now split.
    + now right.
Qed.

(** Without a listed channel, the scan cannot end on [false]. *)
Lemma blacklist_fold_no_channel entries : forall acc,
  ~ lists entries "channel" channelID ->
  acc = Js.Null \/ acc = blacklisted_user ->
  fold_left step entries acc = Js.Null
  \/ fold_left step entries acc = blacklisted_user.
Proof.
  induction entries as [| entry rest IH]; intros acc Hn Hacc; simpl.
  - exact Hacc.
  - apply IH; [now apply lists_tail in Hn |].
    destruct (blacklist_case_cases acc entry)
      as [-> | [(_ & _ & ->) | (Ht & Hi & _)]].
    + exact Hacc.
    + now right.
    + exfalso. apply (lists_head _ _ _ _ Hn). now split.
Qed.

(** With neither the user nor the channel listed, the scan assigns
    nothing. *)
Lemma blacklist_fold_unlisted entries : forall acc,
  ~ lists entries "user" userID ->
  ~ lists entries "channel" channelID ->
  fold_left step entries acc = acc.
Proof.
  induction entries as [| entry rest IH]; intros acc Hu Hc; simpl.
  - reflexivity.
  - destruct (blacklist_case_cases acc entry)
      as [-> | [(Ht & Hi & _) | (Ht & Hi & _)]].
    + apply IH; eapply lists_tail; eassumption.
    + exfalso. apply (lists_head _ _ _ _ Hu). now split.
    + exfalso. apply (lists_head _ _ _ _ Hc). now split.
Qed.

Lemma blacklist_fold_range entries : forall acc,
  acc = Js.Null \/ verdict acc ->
  fold_left step entries acc = Js.Null
  \/ verdict (fold_left step entries acc).
Proof.
  induction entries as [| entry rest IH]; intros acc Hacc; simpl.
  - exact Hacc.
  - apply IH.
    destruct (blacklist_case_cases acc entry)
      as [-> | [(_ & _ & ->) | (_ & _ & ->)]].
    + exact Hacc.
    + right; now right.
    + right; now left.
Qed.

End BlacklistScan.

(* ===================================================================== *)
(** ** checkProperties *)
(* ===================================================================== *)

Section Check.

Variable ErrorStrings : Errors.commands.
Variable this : DefaultCommand.t.
Variable message : Message.t.
Variable args : list string.

Local Abbreviation props := (DefaultCommand._properties this).
Local Abbreviation userID := (Member.id (Message.member message)).
Local Abbreviation channelID := (Channel.id (Message.channel message)).
Local Abbreviation result :=
  (DefaultCommand.checkProperties ErrorStrings this message args).
Local Abbreviation scanned :=
  (DefaultCommand.blacklist_loop ErrorStrings message
     (CommandProperty._blacklist props)).

Lemma blacklist_loop_range : scanned = Js.Null \/ verdict ErrorStrings scanned.
Proof. apply blacklist_fold_range. now left. Qed.

(** A verdict of the scan is what the method returns. *)
Lemma checkProperties_verdict :
  verdict ErrorStrings scanned -> result = scanned.
Proof.
  intros Hv. unfold DefaultCommand.checkProperties,
    DefaultCommand.blacklist_check.
  now rewrite (verdict_not_nullish _ _ Hv).
Qed.

(** Without a verdict the method goes on to the other three checks. *)
Lemma checkProperties_unlisted :
  scanned = Js.Null ->
  result =
    match DefaultCommand.whitelist_check ErrorStrings props message with
    | Some error => error
    | None =>
    match DefaultCommand.channel_type_check ErrorStrings props message with
    | Some error => error
    | None =>
    match DefaultCommand.argument_limits ErrorStrings props args with
    | Some error => error
    | None => Js.Bool true
    end end end.
Proof.
  intros Hs. unfold DefaultCommand.checkProperties,
    DefaultCommand.blacklist_check.
  now rewrite Hs.
Qed.

Lemma whitelist_check_empty :
  CommandProperty._useWhitelist props = true ->
  CommandProperty._whitelist props = [] ->
  DefaultCommand.whitelist_check ErrorStrings props message
  = Some (Js.Str (Errors.permissionError ErrorStrings)).
Proof.
  intros Hu Hw. unfold DefaultCommand.whitelist_check.
  now rewrite Hu, Hw.
Qed.

Lemma empty_whitelist_never_true :
  CommandProperty._useWhitelist props = true ->
  CommandProperty._whitelist props = [] ->
  result <> Js.Bool true.
Proof.
  intros Hu Hw. destruct blacklist_loop_range as [Hs | Hv].
  - rewrite (checkProperties_unlisted Hs), (whitelist_check_empty Hu Hw).
    discriminate.
  - rewrite (checkProperties_verdict Hv). now apply verdict_not_true in Hv.
Qed.

(** C2 (amended).  When the blacklist lists the channel of the message,
    [checkProperties] does not return [true]: it returns [false], the
    silent deny, or the blacklisted-user code, and it returns [false]
    whenever the caller is not listed as a user. *)
Theorem channel_blacklist_denies :
  lists (CommandProperty._blacklist props) "channel" channelID ->
  result <> Js.Bool true
  /\ (result = Js.Bool false
      \/ result = Js.Str (Errors.blacklistedUser ErrorStrings))
  /\ (~ lists (CommandProperty._blacklist props) "user" userID ->
      result = Js.Bool false).
Proof.
  intros Hc.
  assert (Hv : verdict ErrorStrings scanned)
    by now apply blacklist_fold_channel.
  rewrite (checkProperties_verdict Hv).
  split; [now apply verdict_not_true in Hv |].
  split; [exact Hv |].
  intros Hu.
  destruct (blacklist_fold_no_user ErrorStrings userID channelID
              (CommandProperty._blacklist props) Js.Null Hu) as [Hn | Hf].
  - now left.
  - apply verdict_not_nullish in Hv.
    unfold DefaultCommand.blacklist_loop in Hv. rewrite Hn in Hv.
    discriminate.
  - exact Hf.
Qed.

(** C5 (amended).  With [useWhitelist = true] and an empty whitelist,
    [checkProperties] never returns [true], whoever calls; it returns the
    permission-error code whenever the blacklist lists neither the caller
    nor the channel of the message. *)
Theorem empty_whitelist_denies :
  CommandProperty._useWhitelist props = true ->
  CommandProperty._whitelist props = [] ->
  result <> Js.Bool true
  /\ (~ lists (CommandProperty._blacklist props) "user" userID ->
      ~ lists (CommandProperty._blacklist props) "channel" channelID ->
      result = Js.Str (Errors.permissionError ErrorStrings)).
Proof.
  intros Hu Hw. split; [now apply empty_whitelist_never_true |].
  intros Hnu Hnc.
  rewrite checkProperties_unlisted.
  - now rewrite (whitelist_check_empty Hu Hw).
  - now apply blacklist_fold_unlisted.
Qed.

(** X20.  A caller listed as a user in the blacklist is refused with the
    blacklisted-user code, whatever the whitelist says, as long as the
    channel of the message is not listed as well. *)
Lemma blacklisted_user_denied :
  lists (CommandProperty._blacklist props) "user" userID ->
  ~ lists (CommandProperty._blacklist props) "channel" channelID ->
  result = Js.Str (Errors.blacklistedUser ErrorStrings).
Proof.
  intros Hu Hc.
  assert (Hv : verdict ErrorStrings scanned)
    by now apply blacklist_fold_user.
  rewrite (checkProperties_verdict Hv).
  destruct (blacklist_fold_no_channel ErrorStrings userID channelID
              (CommandProperty._blacklist props) Js.Null Hc) as [Hn | Hf].
  - now left.
  - apply verdict_not_nullish in Hv.
    unfold DefaultCommand.blacklist_loop in Hv. rewrite Hn in Hv.
    discriminate.
  - exact Hf.
Qed.

End Check.

(** Witness: the owner, writing in a
    blacklisted channel. *)
Lemma channel_blacklist_denies_witness :
  lists (CommandProperty._blacklist Sample.channel_blocked) "channel" "500"
  /\ DefaultCommand.checkProperties Sample.errors
       (Sample.command Sample.channel_blocked) Sample.message []
     = Js.Bool false.
Proof.
  assert (H : lists (CommandProperty._blacklist Sample.channel_blocked)
                "channel" "500").
  { exists (Sample.channel_entry "500"). simpl. auto. }
  split; [exact H |].
  apply (channel_blacklist_denies Sample.errors
           (Sample.command Sample.channel_blocked) Sample.message [] H).
  intros (e & [<- | []] & Ht & _). discriminate Ht.
Defined.

(** C2, as stated, fails: the owner passes every other check (the same
    command without the channel entry returns [true]), the blacklist lists
    the channel of the message, and [checkProperties] returns [false], on
    which [exec] is meant to refuse without running the command. *)
Lemma channel_blacklist_blocks :
  lists (CommandProperty._blacklist Sample.channel_blocked) "channel"
    (Channel.id (Message.channel Sample.message))
  /\ DefaultCommand.checkProperties Sample.errors
       (Sample.command Sample.defaults) Sample.message []
     = Js.Bool true
  /\ DefaultCommand.checkProperties Sample.errors
       (Sample.command Sample.channel_blocked) Sample.message []
     = Js.Bool false.
Proof.
  split; [| split; reflexivity].
  exists (Sample.channel_entry "500"). simpl. auto.
Qed.

(** C3, at the failing input: the blacklist lists the caller as a user and,
    after that, the channel of the message; the caller is whitelisted.
    The scan goes on after the user entry, the channel entry overwrites
    the code with [false], and [false] is returned instead of the
    blacklisted-user code. *)
Theorem blacklisted_user_then_channel :
  lists (CommandProperty._blacklist Sample.user_then_channel) "user"
    (Member.id (Message.member Sample.message))
  /\ DefaultCommand.whitelist_check Sample.errors Sample.user_then_channel
       Sample.message = None
  /\ DefaultCommand.checkProperties Sample.errors
       (Sample.command Sample.user_then_channel) Sample.message []
     = Js.Bool false
  /\ DefaultCommand.checkProperties Sample.errors
       (Sample.command Sample.user_then_channel) Sample.message []
     <> Js.Str (Errors.blacklistedUser Sample.errors).
Proof.
  split; [| split; [reflexivity | split; [reflexivity | discriminate]]].
  exists (Sample.user_entry "1000"). simpl. auto.
Qed.

(** Witness: nothing whitelisted, nothing
    blacklisted. *)
Lemma empty_whitelist_denies_witness :
  DefaultCommand.checkProperties Sample.errors
    (Sample.command (Sample.with_whitelist Sample.defaults []))
    Sample.message []
  = Js.Str (Errors.permissionError Sample.errors).
Proof.
  apply (empty_whitelist_denies Sample.errors
           (Sample.command (Sample.with_whitelist Sample.defaults []))
           Sample.message [] eq_refl eq_refl);
    intros (e & [] & _).
Defined.

(** C5, as stated, fails: default-deny with an empty whitelist, and the
    result is [false], not the permission-error code, because the
    blacklist lists the channel. *)
Lemma empty_whitelist_blacklisted_channel :
  CommandProperty._useWhitelist Sample.nobody_allowed = true
  /\ CommandProperty._whitelist Sample.nobody_allowed = []
  /\ DefaultCommand.checkProperties Sample.errors
       (Sample.command Sample.nobody_allowed) Sample.message []
     = Js.Bool false
  /\ DefaultCommand.checkProperties Sample.errors
       (Sample.command Sample.nobody_allowed) Sample.message []
     <> Js.Str (Errors.permissionError Sample.errors).
Proof.
  repeat split; discriminate.
Qed.

(* ===================================================================== *)
(** ** The whitelist scan *)
(* ===================================================================== *)

Section WhitelistScan.

Variable message : Message.t.

Local Abbreviation member := (Message.member message).
Local Abbreviation case := (DefaultCommand.whitelist_case message).
Local Abbreviation loop := (DefaultCommand.whitelist_loop message).

Lemma whitelist_case_cases flag entry :
  case flag entry = flag \/ case flag entry = Some true.
Proof.
  unfold DefaultCommand.whitelist_case.
  repeat match goal with
         | |- context [if ?c then _ else _] => destruct c
         end; auto.
Qed.

(** Once the flag is set the loop leaves at the head of its body. *)
Lemma whitelist_loop_set entries flag :
  DefaultCommand.flag_truthy flag = true -> loop entries flag = flag.
Proof.
  intros Hf. destruct entries as [| entry rest]; simpl.
  - reflexivity.
  - now rewrite Hf.
Qed.

(** The scan ends with the flag set exactly when some entry sets it. *)
Lemma whitelist_loop_matches entries :
  loop entries None = Some true
  <-> Exists (fun entry => case None entry = Some true) entries.
Proof.
  induction entries as [| entry rest IH]; simpl.
  - split; [discriminate | intros H; inversion H].
  - destruct (whitelist_case_cases None entry) as [Hc | Hc]; rewrite Hc.
    + rewrite IH. split.
      * intros H. now apply Exists_cons_tl.
      * intros H. inversion H as [? ? Hhd | ? ? Htl]; subst.
        -- rewrite Hc in Hhd. discriminate.
        -- exact Htl.
    + rewrite whitelist_loop_set by reflexivity.
      split; [intros _; now apply Exists_cons_hd | reflexivity].
Qed.

Lemma whitelist_case_unrecognized flag entry :
  whitelist_recognizes entry = false -> case flag entry = flag.
Proof.
  unfold whitelist_recognizes, DefaultCommand.whitelist_case.
  intros H. apply orb_false_elim in H as [-> ->]. reflexivity.
Qed.

Lemma whitelist_loop_filter entries : forall flag,
  loop (List.filter whitelist_recognizes entries) flag = loop entries flag.
Proof.
  induction entries as [| entry rest IH]; intros flag; simpl.
  - reflexivity.
  - destruct (whitelist_recognizes entry) eqn:Hr; simpl.
    + destruct (DefaultCommand.flag_truthy flag); [reflexivity | apply IH].
    + rewrite (whitelist_case_unrecognized _ _ Hr), IH.
      destruct (DefaultCommand.flag_truthy flag) eqn:Hf;
        [now apply whitelist_loop_set | reflexivity].
Qed.

(** C4.  In the whitelist scan a [role] entry with [exact = true] sets the
    flag iff the caller's roles contain the entry's id; with
    [exact = false] it sets the flag iff the guild's role list resolves the
    id to a role whose rank is at most the rank of the caller's highest
    role; when the guild's role list does not resolve the id, the entry
    leaves the flag unset. *)
Theorem role_entry_matches (id : string) :
  (case None {| Entry.type := "role"; Entry.id := id;
                Entry.exact := Some true |} = Some true
   <-> is_Some (Member.roles member !! id))
  /\ (case None {| Entry.type := "role"; Entry.id := id;
                   Entry.exact := Some false |} = Some true
      <-> exists lowRole,
            Guild.roles (Message.guild message) !! id = Some lowRole
            /\ Role.calculatedPosition (Member.highestRole member)
               >= Role.calculatedPosition lowRole)
  /\ (Guild.roles (Message.guild message) !! id = None ->
      case None {| Entry.type := "role"; Entry.id := id;
                   Entry.exact := Some false |} = None).
Proof.
  unfold DefaultCommand.whitelist_case, DefaultCommand.has_role,
    DefaultCommand.unresolved_or_above; simpl.
  split; [| split].
  - destruct (Member.roles member !! id) as [r |]; split.
    + intros _. now exists r.
    + reflexivity.
    + discriminate.
    + intros [r Hr]. discriminate Hr.
  - destruct (Guild.roles (Message.guild message) !! id) as [lowRole |];
      simpl.
    + destruct (Z.gtb_spec (Role.calculatedPosition lowRole)
                  (Role.calculatedPosition (Member.highestRole member)))
        as [Hgt | Hle]; simpl; split.
      * discriminate.
      * intros (r & Hr & Hge). injection Hr as <-. lia.
      * intros _. exists lowRole. split; [reflexivity | lia].
      * reflexivity.
    + split; [discriminate | intros (r & Hr & _); discriminate Hr].
  - intros ->. reflexivity.
Qed.

End WhitelistScan.

(** Witness: the owner holds [helper] (rank 3);
    the exact entry for [helper] matches, the ranked entry for [helper]
    matches, the ranked entry for [moderator] (rank 7) and the one for an
    unknown role do not. *)
Lemma role_entry_matches_witness :
  DefaultCommand.whitelist_case Sample.message None
    (Sample.role_entry "2" true) = Some true
  /\ DefaultCommand.whitelist_case Sample.message None
       (Sample.role_entry "2" false) = Some true
  /\ DefaultCommand.whitelist_case Sample.message None
       (Sample.role_entry "404" false) = None.
Proof.
  destruct (role_entry_matches Sample.message "2") as (Hexact & Hranked & _).
  destruct (role_entry_matches Sample.message "404") as (_ & _ & Hmissing).
  split; [| split].
  - apply Hexact. now exists Sample.helper.
  - apply Hranked. exists Sample.helper. split; [reflexivity | simpl; lia].
  - apply Hmissing. reflexivity.
Defined.

(* ===================================================================== *)
(** ** Entries of unrecognized type *)
(* ===================================================================== *)

Lemma blacklist_case_unrecognized ErrorStrings userID channelID acc entry :
  blacklist_recognizes entry = false ->
  DefaultCommand.blacklist_case ErrorStrings userID channelID acc entry = acc.
Proof.
  unfold blacklist_recognizes, DefaultCommand.blacklist_case.
  intros H. apply orb_false_elim in H as [-> ->]. reflexivity.
Qed.

Lemma blacklist_loop_filter ErrorStrings message entries :
  DefaultCommand.blacklist_loop ErrorStrings message
    (List.filter blacklist_recognizes entries)
  = DefaultCommand.blacklist_loop ErrorStrings message entries.
Proof.
  unfold DefaultCommand.blacklist_loop. generalize Js.Null.
  induction entries as [| entry rest IH]; intros acc; simpl.
  - reflexivity.
  - destruct (blacklist_recognizes entry) eqn:Hr; simpl.
    + apply IH.
    + now rewrite (blacklist_case_unrecognized _ _ _ _ _ Hr), IH.
Qed.

(** C10.  Taking the entries whose type is neither ["user"] nor
    ["channel"] out of the blacklist, and those whose type is neither
    ["user"] nor ["role"] out of the whitelist, does not change the result
    of [checkProperties]. *)
Theorem unrecognized_entries_ignored (ErrorStrings : Errors.commands)
    (this : DefaultCommand.t) (message : Message.t) (args : list string) :
  DefaultCommand.checkProperties ErrorStrings (drop_unrecognized this)
    message args
  = DefaultCommand.checkProperties ErrorStrings this message args.
Proof.
  unfold DefaultCommand.checkProperties, DefaultCommand.blacklist_check,
    DefaultCommand.whitelist_check, drop_unrecognized; simpl.
  now rewrite blacklist_loop_filter, whitelist_loop_filter.
Qed.

(* ===================================================================== *)
(** ** Argument limits *)
(* ===================================================================== *)

Section ArgumentLimits.

Variable ErrorStrings : Errors.commands.
Variable this : DefaultCommand.t.
Variable message : Message.t.
Variable args : list string.

Local Abbreviation props := (DefaultCommand._properties this).
Local Abbreviation result :=
  (DefaultCommand.checkProperties ErrorStrings this message args).

Lemma checkProperties_limits :
  DefaultCommand.blacklist_check ErrorStrings props message = None ->
  DefaultCommand.whitelist_check ErrorStrings props message = None ->
  DefaultCommand.channel_type_check ErrorStrings props message = None ->
  result =
    match DefaultCommand.argument_limits ErrorStrings props args with
    | Some error => error
    | None => Js.Bool true
    end.
Proof.
  intros Hb Hw Hc. unfold DefaultCommand.checkProperties.
  now rewrite Hb, Hw, Hc.
Qed.

(** C8.  Once the blacklist, whitelist and channel-type checks pass: with
    [minArgs = 2] and [maxArgs = 4], one argument gives the min-arg-limit
    code, five give the max-arg-limit code, and two, three or four give
    [true]; a bound equal to [-1] is not compared with the argument count:
    with [minArgs = -1] only the upper bound decides, with [maxArgs = -1]
    only the lower bound, and with both nothing is refused. *)
Theorem argument_bounds :
  DefaultCommand.blacklist_check ErrorStrings props message = None ->
  DefaultCommand.whitelist_check ErrorStrings props message = None ->
  DefaultCommand.channel_type_check ErrorStrings props message = None ->
  (CommandProperty._minArgs props = 2 ->
   CommandProperty._maxArgs props = 4 ->
   (List.length args = 1%nat ->
    result = Js.Str (Errors.minArgLimit ErrorStrings))
   /\ (List.length args = 5%nat ->
       result = Js.Str (Errors.maxArgLimit ErrorStrings))
   /\ ((2 <= List.length args <= 4)%nat -> result = Js.Bool true))
  /\ (CommandProperty._minArgs props = -1 ->
      result =
        if negb (CommandProperty._maxArgs props =? -1)
           && (CommandProperty._maxArgs props <? Z.of_nat (List.length args))
        then Js.Str (Errors.maxArgLimit ErrorStrings)
        else Js.Bool true)
  /\ (CommandProperty._maxArgs props = -1 ->
      result =
        if negb (CommandProperty._minArgs props =? -1)
           && (CommandProperty._minArgs props >? Z.of_nat (List.length args))
        then Js.Str (Errors.minArgLimit ErrorStrings)
        else Js.Bool true)
  /\ (CommandProperty._minArgs props = -1 ->
      CommandProperty._maxArgs props = -1 ->
      result = Js.Bool true).
Proof.
  intros Hb Hw Hc. rewrite (checkProperties_limits Hb Hw Hc).
  unfold DefaultCommand.argument_limits.
  split; [| split; [| split]].
  - intros -> ->. split; [| split].
    + intros ->. reflexivity.
    + intros ->. reflexivity.
    + intros [Hlo Hhi]. simpl.
      destruct (Z.gtb_spec 2 (Z.of_nat (List.length args))); [lia |].
      destruct (Z.ltb_spec 4 (Z.of_nat (List.length args))); [lia |].
      reflexivity.
  - intros ->. simpl.
    now destruct (negb (CommandProperty._maxArgs props =? -1)
                  && (CommandProperty._maxArgs props
                      <? Z.of_nat (List.length args))).
  - intros ->. simpl.
    destruct (negb (CommandProperty._minArgs props =? -1)
              && (CommandProperty._minArgs props
                  >? Z.of_nat (List.length args))); reflexivity.
  - intros -> ->. reflexivity.
Qed.

End ArgumentLimits.

(** Witness: the owner's command with
    [setArgs(2, 4)], called with one, five and three arguments. *)
Lemma argument_bounds_witness :
  DefaultCommand.checkProperties Sample.errors
    (Sample.command Sample.two_to_four) Sample.message ["a"]
  = Js.Str (Errors.minArgLimit Sample.errors)
  /\ DefaultCommand.checkProperties Sample.errors
       (Sample.command Sample.two_to_four) Sample.message
       ["a"; "b"; "c"; "d"; "e"]
     = Js.Str (Errors.maxArgLimit Sample.errors)
  /\ DefaultCommand.checkProperties Sample.errors
       (Sample.command Sample.two_to_four) Sample.message ["a"; "b"; "c"]
     = Js.Bool true
  /\ DefaultCommand.checkProperties Sample.errors
       (Sample.command Sample.defaults) Sample.message ["a"; "b"; "c"]
     = Js.Bool true.
Proof.
  pose proof (argument_bounds Sample.errors
                (Sample.command Sample.two_to_four) Sample.message
                ["a"] eq_refl eq_refl eq_refl) as (Hone & _).
  pose proof (argument_bounds Sample.errors
                (Sample.command Sample.two_to_four) Sample.message
                ["a"; "b"; "c"; "d"; "e"] eq_refl eq_refl eq_refl)
    as (Hfive & _).
  pose proof (argument_bounds Sample.errors
                (Sample.command Sample.two_to_four) Sample.message
                ["a"; "b"; "c"] eq_refl eq_refl eq_refl) as (Hthree & _).
  pose proof (argument_bounds Sample.errors
                (Sample.command Sample.defaults) Sample.message
                ["a"; "b"; "c"] eq_refl eq_refl eq_refl)
    as (_ & _ & _ & Hnone).
  split; [| split; [| split]].
  - now apply Hone.
  - now apply Hfive.
  - apply Hthree; [reflexivity | reflexivity | simpl; lia].
  - now apply Hnone.
Defined.

(* ===================================================================== *)
(** ** Loading the persisted permissions *)
(* ===================================================================== *)

Lemma call_manager this setter :
  CommandProperty._manager (CommandProperty.call this setter)
  = CommandProperty._manager this.
Proof. destruct setter; reflexivity. Qed.

Lemma chain_manager calls : forall this,
  CommandProperty._manager (CommandProperty.chain this calls)
  = CommandProperty._manager this.
Proof.
  unfold CommandProperty.chain.
  induction calls as [| setter rest IH]; intros this; simpl.
  - reflexivity.
  - now rewrite IH, call_manager.
Qed.

Lemma updatePermissions_undefined_manager this :
  CommandProperty._manager this = None ->
  CommandProperty._updatePermissions this
  = ([], inl (Js.TypeError "getSystem")).
Proof.
  intros H. unfold CommandProperty._updatePermissions. now rewrite H.
Qed.

(** C9.  A property object built by the constructor and configured by any
    chain of the class's setters has no [_manager]; [finish()] then fails
    on [this._manager.getSystem] with a [TypeError], before anything is
    fetched, logged or assigned. *)
Theorem finish_without_manager (Config : Configuration.t)
    (commandName : string) (calls : list CommandProperty.Setter) :
  let props :=
    CommandProperty.chain (CommandProperty.constructor Config commandName)
      calls in
  CommandProperty._manager props = None
  /\ CommandProperty._updatePermissions props
     = ([], inl (Js.TypeError "getSystem"))
  /\ CommandProperty.finish props = ([], inl (Js.TypeError "getSystem")).
Proof.
  intros props.
  assert (H : CommandProperty._manager props = None)
    by (unfold props; now rewrite chain_manager).
  split; [exact H |]. split.
  - now apply updatePermissions_undefined_manager.
  - unfold CommandProperty.finish.
    now rewrite (updatePermissions_undefined_manager _ H).
Qed.

Section UnreadableStore.

Variable this : CommandProperty.t.
Variable mgr : Manager.t.
Variable dbSys : Database.t.
Variable dbRet : Database.Ret.

Hypothesis manager_stored : CommandProperty._manager this = Some mgr.
Hypothesis system_found : Manager.getSystem mgr "Database" = Some dbSys.
Hypothesis database_found :
  Database.getDatabase dbSys "cmd_lists" = Some dbRet.
Hypothesis no_data : Database._data dbRet = None.

Local Abbreviation degraded :=
  (CommandProperty.assign_lists this (Some mgr) []
     (CommandProperty._blacklist this)).
Local Abbreviation failure_logged :=
  [Stdout ("CommandProperty " ++ CommandProperty._command this)
     [Js.Str "Failed to load whitelist database"]].

Lemma updatePermissions_no_data :
  CommandProperty._updatePermissions this
  = (failure_logged, inr (degraded, Js.Bool false)).
Proof.
  unfold CommandProperty._updatePermissions.
  rewrite manager_stored; simpl.
  rewrite system_found; simpl.
  rewrite database_found; simpl.
  rewrite no_data. reflexivity.
Qed.

(** C7.  When the fetch of ["cmd_lists"] comes back without data, the load
    run by [finish()] completes without an exception, writes the failure
    to the log and nothing else, leaves [this] with an empty whitelist
    (the other fields as they were), and [_updatePermissions] returns
    [false]; under [useWhitelist = true] the check of a command holding
    these properties never returns [true]. *)
Theorem unreadable_store_empties_whitelist :
  CommandProperty.finish this = (failure_logged, inr degraded)
  /\ CommandProperty._updatePermissions this
     = (failure_logged, inr (degraded, Js.Bool false))
  /\ CommandProperty._whitelist degraded = []
  /\ (CommandProperty._useWhitelist this = true ->
      forall ErrorStrings command message args,
        DefaultCommand._properties command = degraded ->
        DefaultCommand.checkProperties ErrorStrings command message args
        <> Js.Bool true).
Proof.
  split; [| split; [| split]].
  - unfold CommandProperty.finish. now rewrite updatePermissions_no_data.
  - apply updatePermissions_no_data.
  - reflexivity.
  - intros Hu ErrorStrings command message args Hp.
    apply empty_whitelist_never_true; now rewrite Hp.
Qed.

End UnreadableStore.

(** Witness: a manager stored
    into the property object, and a store without data. *)
Lemma unreadable_store_empties_whitelist_witness :
  CommandProperty._manager Sample.wired = Some Sample.wired_manager
  /\ Database._data {| Database._data := None |} = None
  /\ trace (CommandProperty.finish Sample.wired)
     = [Stdout "CommandProperty ping"
          [Js.Str "Failed to load whitelist database"]]
  /\ exists this,
       outcome (CommandProperty.finish Sample.wired) = inr this
       /\ CommandProperty._whitelist this = [].
Proof.
  split; [reflexivity | split; [reflexivity |]].
  destruct (unreadable_store_empties_whitelist Sample.wired
              Sample.wired_manager Sample.unreadable_store
              {| Database._data := None |}
              eq_refl eq_refl eq_refl eq_refl) as (-> & _).
  split; [reflexivity |].
  eexists. split; reflexivity.
Defined.

(* ===================================================================== *)
(** ** exec *)
(* ===================================================================== *)

(** C1, on every input.  On a global object without a function
    [checkProperties], [exec] throws a [ReferenceError] at its first
    statement: the method [checkProperties] is not consulted, [run] is not
    invoked, nothing is sent and nothing is returned. *)
Theorem exec_unbound_checkProperties (StringToNumber : string -> float)
    (globalThis : gmap string DefaultCommand.GlobalFunction)
    (this : DefaultCommand.t) (message : Message.t) (args : list string) :
  DefaultCommand.exec StringToNumber (delete "checkProperties" globalThis)
    this message args
  = ([], inl (Js.ReferenceError "checkProperties")).
Proof.
  unfold DefaultCommand.exec, DefaultCommand.call_identifier; simpl.
  now rewrite lookup_delete_eq.
Qed.

(** X19.  Where the call of the identifier completes (a function
    [checkProperties] sits on the global object), [exec] branches on what
    that function returns: it hands over to [run] when the value is
    loosely equal to [true]; otherwise it returns [false], after one error
    reply to the channel of the message unless the value is loosely equal
    to [false]. *)
Lemma exec_bound_checkProperties StringToNumber globalThis this message args
    tr resp :
  DefaultCommand.call_identifier globalThis "checkProperties" message args
  = (tr, inr resp) ->
  DefaultCommand.exec StringToNumber globalThis this message args
  = if Js.loose_eq_bool StringToNumber resp true
    then ((tr ++ trace (DefaultCommand.run this message args))%list,
          outcome (DefaultCommand.run this message args))
    else if Js.loose_eq_bool StringToNumber resp false
    then (tr, inr (Js.Bool false))
    else ((tr ++ [ChannelSend (Channel.id (Message.channel message))
                    (ErrorReply_error resp)])%list,
          inr (Js.Bool false)).
Proof.
  intros Hcall. unfold DefaultCommand.exec. rewrite Hcall.
  unfold bind, trace, outcome.
  destruct (Js.loose_eq_bool StringToNumber resp true).
  - now destruct (DefaultCommand.run this message args).
  - destruct (Js.loose_eq_bool StringToNumber resp false); simpl.
    + now rewrite app_nil_r.
    + reflexivity.
Qed.

(** X18.  The alias runs the link's [exec] with the same message and
    arguments and keeps its events and its exception, but not its value:
    a call that completes returns [undefined]. *)
Lemma alias_exec_outcome StringToNumber globalThis this message args :
  DefaultAlias.exec StringToNumber globalThis this message args
  = (trace (DefaultCommand.exec StringToNumber globalThis
              (DefaultAlias._link this) message args),
     match outcome (DefaultCommand.exec StringToNumber globalThis
                      (DefaultAlias._link this) message args) with
     | inl e => inl e
     | inr _ => inr Js.Undefined
     end).
Proof.
  unfold DefaultAlias.exec, bind, trace, outcome.
  destruct (DefaultCommand.exec _ _ _ _ _) as [tr [e | v]]; simpl.
  - reflexivity.
  - now rewrite app_nil_r.
Qed.

(** C6, at the failing input: where the link's [exec] returns a value
    (here the pair of the base [run], the call being let through by a
    global [checkProperties]), the alias's [exec] returns [undefined]. *)
Theorem alias_drops_result (StringToNumber : string -> float) :
  DefaultCommand.exec StringToNumber Sample.permissive_global
    (DefaultAlias._link Sample.alias) Sample.message []
  = ([], inr (Js.Arr [Js.Bool false;
                      Js.Str (Errors.notImplemented Sample.errors)]))
  /\ DefaultAlias.exec StringToNumber Sample.permissive_global
       Sample.alias Sample.message []
     = ([], inr Js.Undefined).
Proof. split; reflexivity. Qed.

(* ===================================================================== *)
(** ** When checkProperties lets a call through *)
(* ===================================================================== *)

Section Stages.

Variable ErrorStrings : Errors.commands.
Variable this : DefaultCommand.t.
Variable message : Message.t.
Variable args : list string.

Local Abbreviation props := (DefaultCommand._properties this).
Local Abbreviation userID := (Member.id (Message.member message)).
Local Abbreviation channelID := (Channel.id (Message.channel message)).
Local Abbreviation result :=
  (DefaultCommand.checkProperties ErrorStrings this message args).

Lemma blacklist_check_none_iff :
  DefaultCommand.blacklist_check ErrorStrings props message = None
  <-> ~ lists (CommandProperty._blacklist props) "user" userID
      /\ ~ lists (CommandProperty._blacklist props) "channel" channelID.
Proof.
  unfold DefaultCommand.blacklist_check. split.
  - intros Hnone.
    assert (Hnull : Js.is_nullish
                      (DefaultCommand.blacklist_loop ErrorStrings message
                         (CommandProperty._blacklist props)) = true).
    { destruct (Js.is_nullish _); [reflexivity | discriminate Hnone]. }
    split; intros Hl.
    + apply (blacklist_fold_user ErrorStrings userID channelID _ Js.Null)
        in Hl.
      apply verdict_not_nullish in Hl.
      unfold DefaultCommand.blacklist_loop in Hnull. congruence.
    + apply (blacklist_fold_channel ErrorStrings userID channelID _ Js.Null)
        in Hl.
      apply verdict_not_nullish in Hl.
      unfold DefaultCommand.blacklist_loop in Hnull. congruence.
  - intros [Hu Hc]. unfold DefaultCommand.blacklist_loop.
    now rewrite blacklist_fold_unlisted.
Qed.

Lemma blacklist_check_some v :
  DefaultCommand.blacklist_check ErrorStrings props message = Some v ->
  verdict ErrorStrings v.
Proof.
  unfold DefaultCommand.blacklist_check. intros H.
  destruct (blacklist_loop_range ErrorStrings this message) as [Hn | Hv].
  - rewrite Hn in H. discriminate H.
  - rewrite (verdict_not_nullish _ _ Hv) in H. simpl in H.
    now injection H as <-.
Qed.

Lemma whitelist_loop_range entries : forall flag,
  flag = None \/ flag = Some true ->
  DefaultCommand.whitelist_loop message entries flag = None
  \/ DefaultCommand.whitelist_loop message entries flag = Some true.
Proof.
  induction entries as [| entry rest IH]; intros flag Hf; simpl.
  - exact Hf.
  - destruct Hf as [-> | ->]; simpl.
    + apply IH.
      destruct (whitelist_case_cases message None entry) as [-> | ->]; auto.
    + now right.
Qed.

Lemma whitelist_check_none_iff :
  DefaultCommand.whitelist_check ErrorStrings props message = None
  <-> (CommandProperty._useWhitelist props = true ->
       Exists (grants message) (CommandProperty._whitelist props)).
Proof.
  unfold DefaultCommand.whitelist_check, grants.
  destruct (CommandProperty._useWhitelist props).
  - rewrite <- whitelist_loop_matches.
    destruct (whitelist_loop_range (CommandProperty._whitelist props) None)
      as [-> | ->]; [now left | |]; simpl.
    + split; [discriminate | intros H; specialize (H eq_refl); discriminate].
    + split; reflexivity.
  - split; [discriminate | reflexivity].
Qed.

Lemma channel_type_check_none_iff :
  DefaultCommand.channel_type_check ErrorStrings props message = None
  <-> (CommandProperty._allowDM props = false ->
       Channel.type (Message.channel message) <> "dm").
Proof.
  unfold DefaultCommand.channel_type_check.
  destruct (CommandProperty._allowDM props); simpl.
  - split; [discriminate | reflexivity].
  - destruct (String.eqb_spec (Channel.type (Message.channel message)) "dm")
      as [Heq | Hne].
    + split; [discriminate | intros H; now specialize (H eq_refl)].
    + split; [intros _ _; exact Hne | reflexivity].
Qed.

Lemma argument_limits_none_iff :
  DefaultCommand.argument_limits ErrorStrings props args = None
  <-> within_limits props (List.length args).
Proof.
  unfold DefaultCommand.argument_limits, within_limits.
  destruct (Z.eqb_spec (CommandProperty._minArgs props) (-1)) as [Hm | Hm];
    destruct (Z.eqb_spec (CommandProperty._maxArgs props) (-1)) as [HM | HM];
    destruct (Z.gtb_spec (CommandProperty._minArgs props)
                (Z.of_nat (List.length args))) as [Hgt | Hgt];
    destruct (Z.ltb_spec (CommandProperty._maxArgs props)
                (Z.of_nat (List.length args))) as [Hlt | Hlt];
    simpl; split; try discriminate; try reflexivity;
    try (intros _; split; [auto; right; lia | auto; right; lia]);
    intros [[? | ?] [? | ?]]; lia.
Qed.

Lemma checkProperties_true_stages :
  result = Js.Bool true
  <-> DefaultCommand.blacklist_check ErrorStrings props message = None
      /\ DefaultCommand.whitelist_check ErrorStrings props message = None
      /\ DefaultCommand.channel_type_check ErrorStrings props message = None
      /\ DefaultCommand.argument_limits ErrorStrings props args = None.
Proof.
  unfold DefaultCommand.checkProperties.
  destruct (DefaultCommand.blacklist_check ErrorStrings props message)
    as [v |] eqn:Hb.
  { apply blacklist_check_some in Hb. apply verdict_not_true in Hb.
    split; [intros H; now destruct Hb | intros (H & _); discriminate H]. }
  unfold DefaultCommand.whitelist_check, DefaultCommand.channel_type_check,
    DefaultCommand.argument_limits.
  repeat match goal with
         | |- context [if ?c then _ else _] => destruct c
         end;
    split; try discriminate; try (intros (_ & H1 & H2 & H3); discriminate);
    auto.
Qed.

End Stages.

(** X1.  [checkProperties] returns [true] exactly when the blacklist lists
    neither the caller nor the channel, some whitelist entry grants the
    call if the whitelist is enforced, the message is not a direct
    message if those are disallowed, and the argument count is inside the
    bounds that are set. *)
Theorem checkProperties_accepts_iff (ErrorStrings : Errors.commands)
    (this : DefaultCommand.t) (message : Message.t) (args : list string) :
  let props := DefaultCommand._properties this in
  DefaultCommand.checkProperties ErrorStrings this message args = Js.Bool true
  <-> ~ lists (CommandProperty._blacklist props) "user"
          (Member.id (Message.member message))
      /\ ~ lists (CommandProperty._blacklist props) "channel"
            (Channel.id (Message.channel message))
      /\ (CommandProperty._useWhitelist props = true ->
          Exists (grants message) (CommandProperty._whitelist props))
      /\ (CommandProperty._allowDM props = false ->
          Channel.type (Message.channel message) <> "dm")
      /\ within_limits props (List.length args).
Proof.
  intros props. rewrite checkProperties_true_stages.
  rewrite blacklist_check_none_iff, whitelist_check_none_iff,
    channel_type_check_none_iff, argument_limits_none_iff.
  tauto.
Qed.

(** X2.  [checkProperties] returns [true], [false] or one of the five
    codes of the table, and nothing else. *)
Theorem checkProperties_range (ErrorStrings : Errors.commands)
    (this : DefaultCommand.t) (message : Message.t) (args : list string) :
  In (DefaultCommand.checkProperties ErrorStrings this message args)
     [Js.Bool true; Js.Bool false;
      Js.Str (Errors.blacklistedUser ErrorStrings);
      Js.Str (Errors.permissionError ErrorStrings);
      Js.Str (Errors.dmDisabled ErrorStrings);
      Js.Str (Errors.minArgLimit ErrorStrings);
      Js.Str (Errors.maxArgLimit ErrorStrings)].
Proof.
  unfold DefaultCommand.checkProperties.
  destruct (DefaultCommand.blacklist_check ErrorStrings _ message)
    as [v |] eqn:Hb.
  { apply blacklist_check_some in Hb as [-> | ->]; simpl; auto. }
  unfold DefaultCommand.whitelist_check, DefaultCommand.channel_type_check,
    DefaultCommand.argument_limits.
  repeat match goal with
         | |- context [if ?c then _ else _] => destruct c
         end; simpl; auto 10.
Qed.



(** X4.  With [useWhitelist = false] the whitelist is not read: any other
    whitelist gives the same result. *)
Theorem whitelist_not_enforced (ErrorStrings : Errors.commands)
    (this : DefaultCommand.t) (message : Message.t) (args : list string)
    (whitelist : list Entry.t) :
  let props := DefaultCommand._properties this in
  CommandProperty._useWhitelist props = false ->
  DefaultCommand.checkProperties ErrorStrings
    (with_lists this whitelist (CommandProperty._blacklist props))
    message args
  = DefaultCommand.checkProperties ErrorStrings this message args.
Proof.
  intros props Hu.
  unfold DefaultCommand.checkProperties, DefaultCommand.whitelist_check,
    with_lists; simpl.
  fold props. now rewrite Hu.
Qed.

(** Witness: the defaults after [forceWhitelist(false)], for a direct
    message of the owner, with the whitelist emptied. *)
Lemma whitelist_not_enforced_witness :
  DefaultCommand.checkProperties Sample.errors
    (with_lists
       (Sample.command (CommandProperty.forceWhitelist Sample.defaults false))
       [] [])
    SampleStore.direct_message []
  = DefaultCommand.checkProperties Sample.errors
      (Sample.command (CommandProperty.forceWhitelist Sample.defaults false))
      SampleStore.direct_message [].
Proof.
  apply (whitelist_not_enforced Sample.errors
           (Sample.command
              (CommandProperty.forceWhitelist Sample.defaults false))
           SampleStore.direct_message [] []).
  reflexivity.
Defined.

Lemma whitelist_loop_same_entries message (w w' : list Entry.t) :
  (forall entry, In entry w <-> In entry w') ->
  DefaultCommand.whitelist_loop message w None
  = DefaultCommand.whitelist_loop message w' None.
Proof.
  intros Hsame.
  assert (Hiff : DefaultCommand.whitelist_loop message w None = Some true
                 <-> DefaultCommand.whitelist_loop message w' None
                     = Some true).
  { rewrite !whitelist_loop_matches, !List.Exists_exists.
    split; intros (e & Hin & He); exists e; split; try exact He;
      now apply Hsame. }
  destruct (whitelist_loop_range message w None) as [H | H]; [now left | |];
    destruct (whitelist_loop_range message w' None) as [H' | H'];
    try (now left); rewrite H, H' in *; try reflexivity.
  - destruct Hiff as [_ Hiff]. specialize (Hiff eq_refl). discriminate.
  - destruct Hiff as [Hiff _]. specialize (Hiff eq_refl). discriminate.
Qed.

(** X5.  The result does not depend on the order of the whitelist nor on
    repeated entries: two whitelists with the same entries give the same
    result. *)
Theorem whitelist_order_irrelevant (ErrorStrings : Errors.commands)
    (this : DefaultCommand.t) (message : Message.t) (args : list string)
    (whitelist : list Entry.t) :
  let props := DefaultCommand._properties this in
  (forall entry,
     In entry whitelist <-> In entry (CommandProperty._whitelist props)) ->
  DefaultCommand.checkProperties ErrorStrings
    (with_lists this whitelist (CommandProperty._blacklist props))
    message args
  = DefaultCommand.checkProperties ErrorStrings this message args.
Proof.
  intros props Hsame.
  unfold DefaultCommand.checkProperties, DefaultCommand.whitelist_check,
    with_lists; simpl.
  fold props.
  now rewrite (whitelist_loop_same_entries message _ _ Hsame).
Qed.

(** Witness: a whitelist of two entries, swapped and with one of them
    repeated. *)
Lemma whitelist_order_irrelevant_witness :
  DefaultCommand.checkProperties Sample.errors
    (with_lists
       (Sample.command
          (Sample.with_whitelist Sample.defaults
             [Sample.role_entry "3" false; Sample.user_entry "1000"]))
       [Sample.user_entry "1000"; Sample.role_entry "3" false;
        Sample.user_entry "1000"]
       [])
    Sample.message []
  = DefaultCommand.checkProperties Sample.errors
      (Sample.command
         (Sample.with_whitelist Sample.defaults
            [Sample.role_entry "3" false; Sample.user_entry "1000"]))
      Sample.message [].
Proof.
  apply (whitelist_order_irrelevant Sample.errors
           (Sample.command
              (Sample.with_whitelist Sample.defaults
                 [Sample.role_entry "3" false; Sample.user_entry "1000"]))
           Sample.message []
           [Sample.user_entry "1000"; Sample.role_entry "3" false;
            Sample.user_entry "1000"]).
  intros entry; simpl; tauto.
Defined.

Lemma lists_incl (small large : list Entry.t) type id :
  incl small large -> lists small type id -> lists large type id.
Proof.
  intros Hincl (e & Hin & H). exists e. split; [now apply Hincl | exact H].
Qed.

(** X6.  Access is kept when the whitelist grows and the blacklist
    shrinks: if [checkProperties] returns [true], it still does with any
    whitelist that contains the old one and any blacklist contained in the
    old one. *)
Theorem wider_lists_keep_access (ErrorStrings : Errors.commands)
    (this : DefaultCommand.t) (message : Message.t) (args : list string)
    (whitelist blacklist : list Entry.t) :
  let props := DefaultCommand._properties this in
  incl (CommandProperty._whitelist props) whitelist ->
  incl blacklist (CommandProperty._blacklist props) ->
  DefaultCommand.checkProperties ErrorStrings this message args
  = Js.Bool true ->
  DefaultCommand.checkProperties ErrorStrings
    (with_lists this whitelist blacklist) message args
  = Js.Bool true.
Proof.
  intros props Hw Hb.
  rewrite !checkProperties_true_stages.
  rewrite !blacklist_check_none_iff, !whitelist_check_none_iff.
  intros ((Hu & Hc) & Hg & Hdm & Hargs). fold props in Hu, Hc, Hg.
  unfold with_lists; simpl. fold props.
  split; [split |].
  - intros H. apply Hu. eapply lists_incl; eassumption.
  - intros H. apply Hc. eapply lists_incl; eassumption.
  - split; [| split; assumption].
    intros Hon. specialize (Hg Hon).
    rewrite List.Exists_exists in *. destruct Hg as (e & Hin & He).
    exists e. split; [now apply Hw | exact He].
Qed.

(** Witness: the owner is let through by the defaults, and still is after
    a role entry is added to the whitelist. *)
Lemma wider_lists_keep_access_witness :
  DefaultCommand.checkProperties Sample.errors
    (with_lists (Sample.command Sample.defaults)
       [Sample.role_entry "3" true; Sample.user_entry "1000"] [])
    Sample.message []
  = Js.Bool true.
Proof.
  apply (wider_lists_keep_access Sample.errors
           (Sample.command Sample.defaults) Sample.message []
           [Sample.role_entry "3" true; Sample.user_entry "1000"] []).
  - intros e [<- | []]. simpl. auto.
  - intros e [].
  - reflexivity.
Defined.

(** X7.  The last matching blacklist entry decides: when no entry after
    it lists the caller or the channel, a channel entry for the channel of
    the message makes [checkProperties] return [false] and a user entry
    for the caller makes it return the blacklisted-user code, whatever
    stands before it in the blacklist and whatever the whitelist says. *)
Theorem blacklist_last_match_decides (ErrorStrings : Errors.commands)
    (this : DefaultCommand.t) (message : Message.t) (args : list string)
    (before after : list Entry.t) (entry : Entry.t) :
  let props := DefaultCommand._properties this in
  let userID := Member.id (Message.member message) in
  let channelID := Channel.id (Message.channel message) in
  CommandProperty._blacklist props = (before ++ entry :: after)%list ->
  ~ lists after "user" userID ->
  ~ lists after "channel" channelID ->
  (Entry.type entry = "channel" -> Entry.id entry = channelID ->
   DefaultCommand.checkProperties ErrorStrings this message args
   = Js.Bool false)
  /\ (Entry.type entry = "user" -> Entry.id entry = userID ->
      DefaultCommand.checkProperties ErrorStrings this message args
      = Js.Str (Errors.blacklistedUser ErrorStrings)).
Proof.
  intros props userID channelID Hbl Hu Hc.
  assert (Hscan :
    DefaultCommand.blacklist_loop ErrorStrings message
      (CommandProperty._blacklist props)
    = DefaultCommand.blacklist_case ErrorStrings userID channelID
        (fold_left
           (DefaultCommand.blacklist_case ErrorStrings userID channelID)
           before Js.Null)
        entry).
  { unfold DefaultCommand.blacklist_loop. fold userID channelID.
    rewrite Hbl, fold_left_app. simpl.
    now apply blacklist_fold_unlisted. }
  split; intros Ht Hi.
  - rewrite (blacklist_case_channel _ _ _ _ _ Ht Hi) in Hscan.
    rewrite checkProperties_verdict; [exact Hscan |].
    fold props. rewrite Hscan. now left.
  - rewrite (blacklist_case_user _ _ _ _ _ Ht Hi) in Hscan.
    rewrite checkProperties_verdict; [exact Hscan |].
    fold props. rewrite Hscan. now right.
Qed.

(** Witness: the channel is listed first and the owner after it; the
    user entry is the last match. *)
Lemma blacklist_last_match_decides_witness :
  DefaultCommand.checkProperties Sample.errors
    (Sample.command
       (Sample.with_blacklist Sample.defaults
          [Sample.channel_entry "500"; Sample.user_entry "1000";
           Sample.user_entry "7"]))
    Sample.message []
  = Js.Str (Errors.blacklistedUser Sample.errors).
Proof.
  apply (blacklist_last_match_decides Sample.errors
           (Sample.command
              (Sample.with_blacklist Sample.defaults
                 [Sample.channel_entry "500"; Sample.user_entry "1000";
                  Sample.user_entry "7"]))
           Sample.message []
           [Sample.channel_entry "500"] [Sample.user_entry "7"]
           (Sample.user_entry "1000") eq_refl).
  - intros (e & [<- | []] & _ & Hid). discriminate Hid.
  - intros (e & [<- | []] & Ht & _). discriminate Ht.
  - reflexivity.
  - reflexivity.
Defined.

(** X8.  A command built on the constructor's default properties lets
    the configured owner through and refuses everybody else with the
    permission-error code, in any channel and with any arguments. *)
Theorem default_properties_owner_only (ErrorStrings : Errors.commands)
    (Config : Configuration.t) (mgr : Manager.t)
    (commandName name : string) (message : Message.t)
    (args : list string) :
  DefaultCommand.checkProperties ErrorStrings
    (DefaultCommand.constructor ErrorStrings mgr
       (CommandProperty.constructor Config commandName) name)
    message args
  = if String.eqb (Configuration.owner Config)
         (Member.id (Message.member message))
    then Js.Bool true
    else Js.Str (Errors.permissionError ErrorStrings).
Proof.
  unfold DefaultCommand.checkProperties, DefaultCommand.blacklist_check,
    DefaultCommand.whitelist_check, DefaultCommand.channel_type_check,
    DefaultCommand.argument_limits; simpl.
  unfold DefaultCommand.whitelist_case; simpl.
  now destruct (String.eqb (Configuration.owner Config)
                  (Member.id (Message.member message))).
Qed.

(** X9.  Once the blacklist, whitelist and channel-type checks pass, the
    result is [true] exactly for an argument count inside the bounds that
    are set; a count below a set lower bound gives the min-arg-limit code,
    whatever the upper bound is, and a count above a set upper bound gives
    the max-arg-limit code when the lower bound does not refuse it. *)
Theorem argument_limits_decide (ErrorStrings : Errors.commands)
    (this : DefaultCommand.t) (message : Message.t) (args : list string) :
  let props := DefaultCommand._properties this in
  let count := Z.of_nat (List.length args) in
  let result :=
    DefaultCommand.checkProperties ErrorStrings this message args in
  DefaultCommand.blacklist_check ErrorStrings props message = None ->
  DefaultCommand.whitelist_check ErrorStrings props message = None ->
  DefaultCommand.channel_type_check ErrorStrings props message = None ->
  (result = Js.Bool true <-> within_limits props (List.length args))
  /\ (CommandProperty._minArgs props <> -1 ->
      count < CommandProperty._minArgs props ->
      result = Js.Str (Errors.minArgLimit ErrorStrings))
  /\ (CommandProperty._minArgs props = -1
      \/ CommandProperty._minArgs props <= count ->
      CommandProperty._maxArgs props <> -1 ->
      CommandProperty._maxArgs props < count ->
      result = Js.Str (Errors.maxArgLimit ErrorStrings)).
Proof.
  intros props count result Hb Hw Hc. split; [| split].
  - unfold result.
    rewrite checkProperties_true_stages, argument_limits_none_iff.
    fold props. rewrite Hb, Hw, Hc.
    split; [now intros (_ & _ & _ & H) |].
    intros H.
    split; [reflexivity | split; [reflexivity | split; [reflexivity |]]].
    exact H.
  - intros Hset Hlow. unfold result.
    rewrite (checkProperties_limits _ _ _ _ Hb Hw Hc).
    unfold DefaultCommand.argument_limits. fold props count.
    destruct (Z.eqb_spec (CommandProperty._minArgs props) (-1)); [easy |].
    destruct (Z.gtb_spec (CommandProperty._minArgs props) count);
      [reflexivity | lia].
  - intros Hmin Hset Hhigh. unfold result.
    rewrite (checkProperties_limits _ _ _ _ Hb Hw Hc).
    unfold DefaultCommand.argument_limits. fold props count.
    assert (Hfirst : negb (CommandProperty._minArgs props =? -1)
                     && (CommandProperty._minArgs props >? count) = false).
    { destruct (Z.eqb_spec (CommandProperty._minArgs props) (-1));
        [reflexivity |].
      destruct (Z.gtb_spec (CommandProperty._minArgs props) count);
        [lia | reflexivity]. }
    rewrite Hfirst.
    destruct (Z.eqb_spec (CommandProperty._maxArgs props) (-1)); [easy |].
    destruct (Z.ltb_spec (CommandProperty._maxArgs props) count);
      [reflexivity | lia].
Qed.

(** Witness: [setArgs(3, 1)] and two arguments: below the lower bound and
    above the upper one, and the lower bound answers. *)
Lemma argument_limits_decide_witness :
  DefaultCommand.checkProperties Sample.errors
    (Sample.command (CommandProperty.setArgs Sample.defaults 3 1))
    Sample.message ["a"; "b"]
  = Js.Str (Errors.minArgLimit Sample.errors).
Proof.
  apply (argument_limits_decide Sample.errors
           (Sample.command (CommandProperty.setArgs Sample.defaults 3 1))
           Sample.message ["a"; "b"] eq_refl eq_refl eq_refl);
    simpl; lia.
Defined.

(** X10.  Bounds that cross refuse every call: with both bounds set and
    [maxArgs < minArgs], [checkProperties] never returns [true]. *)
Theorem crossed_bounds_refuse_all (ErrorStrings : Errors.commands)
    (this : DefaultCommand.t) (message : Message.t) (args : list string) :
  let props := DefaultCommand._properties this in
  CommandProperty._minArgs props <> -1 ->
  CommandProperty._maxArgs props <> -1 ->
  CommandProperty._maxArgs props < CommandProperty._minArgs props ->
  DefaultCommand.checkProperties ErrorStrings this message args
  <> Js.Bool true.
Proof.
  intros props Hmin Hmax Hcross.
  rewrite checkProperties_true_stages, argument_limits_none_iff.
  fold props. unfold within_limits.
  intros (_ & _ & _ & [Hlo | Hlo] & [Hhi | Hhi]); lia.
Qed.

(** Witness: the owner and [setArgs(3, 1)], with two arguments. *)
Lemma crossed_bounds_refuse_all_witness :
  DefaultCommand.checkProperties Sample.errors
    (Sample.command (CommandProperty.setArgs Sample.defaults 3 1))
    Sample.message ["a"; "b"]
  <> Js.Bool true.
Proof.
  apply (crossed_bounds_refuse_all Sample.errors
           (Sample.command (CommandProperty.setArgs Sample.defaults 3 1))
           Sample.message ["a"; "b"]); simpl; lia.
Defined.

(** X11.  After [noArgs()] the arguments play no part: every argument
    list gives the same result. *)
Theorem noArgs_ignores_arguments (ErrorStrings : Errors.commands)
    (this : DefaultCommand.t) (message : Message.t)
    (args args' : list string) :
  let command :=
    with_properties this
      (CommandProperty.noArgs (DefaultCommand._properties this)) in
  DefaultCommand.checkProperties ErrorStrings command message args
  = DefaultCommand.checkProperties ErrorStrings command message args'.
Proof.
  intros command.
  unfold DefaultCommand.checkProperties, DefaultCommand.argument_limits.
  reflexivity.
Qed.

Lemma call_lists this setter :
  CommandProperty._whitelist (CommandProperty.call this setter)
  = CommandProperty._whitelist this
  /\ CommandProperty._blacklist (CommandProperty.call this setter)
     = CommandProperty._blacklist this
  /\ CommandProperty._command (CommandProperty.call this setter)
     = CommandProperty._command this.
Proof. destruct setter; repeat split. Qed.

(** X12.  No chain of the configuration calls ([setArgs], [noArgs],
    [allowDM], [setFixedPermissions], [forceWhitelist]) changes the
    whitelist, the blacklist or the command name. *)
Theorem setters_keep_lists (calls : list CommandProperty.Setter) :
  forall this : CommandProperty.t,
  CommandProperty._whitelist (CommandProperty.chain this calls)
  = CommandProperty._whitelist this
  /\ CommandProperty._blacklist (CommandProperty.chain this calls)
     = CommandProperty._blacklist this
  /\ CommandProperty._command (CommandProperty.chain this calls)
     = CommandProperty._command this.
Proof.
  unfold CommandProperty.chain.
  induction calls as [| setter rest IH]; intros this; simpl.
  - repeat split.
  - destruct (IH (CommandProperty.call this setter)) as (-> & -> & ->).
    apply call_lists.
Qed.

(* ===================================================================== *)
(** ** Loading the persisted permissions: the readable store *)
(* ===================================================================== *)

Section ReadableStore.

Variable this : CommandProperty.t.
Variable mgr : Manager.t.
Variable dbSys : Database.t.
Variable dbRet : Database.Ret.
Variable db : gmap string Database.Permissions.

Hypothesis manager_stored : CommandProperty._manager this = Some mgr.
Hypothesis system_found : Manager.getSystem mgr "Database" = Some dbSys.
Hypothesis database_found :
  Database.getDatabase dbSys "cmd_lists" = Some dbRet.
Hypothesis data_read : Database._data dbRet = Some db.

Local Abbreviation name := (CommandProperty._command this).
Local Abbreviation seed :=
  {| Database.whitelist := CommandProperty._whitelist this;
     Database.blacklist := CommandProperty._blacklist this |}.
Local Abbreviation written :=
  {| Database._data := Some (<[name := seed]> db) |}.
Local Abbreviation created :=
  (CommandProperty.assign_lists this
     (Some (Manager.setSystem mgr "Database"
              (Database.store dbSys "cmd_lists" written)))
     (CommandProperty._whitelist this) (CommandProperty._blacklist this)).

Lemma updatePermissions_created :
  db !! name = None ->
  CommandProperty._updatePermissions this
  = ([created_line this; DbCommit written; loaded_line this],
     inr (created, Js.Undefined)).
Proof.
  intros Hmissing. unfold CommandProperty._updatePermissions.
  rewrite manager_stored; simpl.
  rewrite system_found; simpl.
  rewrite database_found; simpl.
  rewrite data_read, Hmissing; simpl.
  rewrite lookup_insert_eq. reflexivity.
Qed.

Lemma updatePermissions_loaded perms :
  db !! name = Some perms ->
  CommandProperty._updatePermissions this
  = ([loaded_line this],
     inr (CommandProperty.assign_lists this (Some mgr)
            (Database.whitelist perms) (Database.blacklist perms),
          Js.Undefined)).
Proof.
  intros Hfound. unfold CommandProperty._updatePermissions.
  rewrite manager_stored; simpl.
  rewrite system_found; simpl.
  rewrite database_found; simpl.
  rewrite data_read, Hfound; simpl.
  rewrite Hfound. reflexivity.
Qed.


(** X14.  When the store holds a record for the command, [finish()]
    replaces the object's whitelist and blacklist by the record's, logs
    the load, and neither commits nor writes to the store. *)
Theorem finish_loads_record (perms : Database.Permissions) :
  db !! name = Some perms ->
  exists loaded,
    CommandProperty.finish this = ([loaded_line this], inr loaded)
    /\ CommandProperty._whitelist loaded = Database.whitelist perms
    /\ CommandProperty._blacklist loaded = Database.blacklist perms
    /\ CommandProperty._manager loaded = CommandProperty._manager this.
Proof.
  intros Hfound. eexists. split; [| split; [| split]].
  - unfold CommandProperty.finish.
    now rewrite (updatePermissions_loaded _ Hfound).
  - reflexivity.
  - reflexivity.
  - simpl. now rewrite manager_stored.
Qed.

End ReadableStore.


(** Witness: the defaults, loaded against a store that holds other lists
    for ["ping"]. *)
Lemma finish_loads_record_witness :
  exists loaded,
    CommandProperty.finish (SampleStore.wired_to SampleStore.filled)
    = ([loaded_line Sample.defaults], inr loaded)
    /\ CommandProperty._whitelist loaded = [Sample.role_entry "3" false]
    /\ CommandProperty._blacklist loaded = [Sample.user_entry "1000"].
Proof.
  destruct (finish_loads_record
              (SampleStore.wired_to SampleStore.filled)
              (SampleStore.manager_of SampleStore.filled)
              SampleStore.filled
              {| Database._data := Some (<["ping" := SampleStore.persisted]> ∅) |}
              (<["ping" := SampleStore.persisted]> ∅)
              eq_refl eq_refl eq_refl eq_refl
              SampleStore.persisted eq_refl)
    as (loaded & Hfinish & Hw & Hb & _).
  exists loaded. split; [exact Hfinish | split; assumption].
Defined.

(** The three ways in which [finish()] returns. *)
Lemma finish_returns_cases this tr this' :
  CommandProperty.finish this = (tr, inr this') ->
  exists mgr dbSys dbRet,
    CommandProperty._manager this = Some mgr
    /\ Manager.getSystem mgr "Database" = Some dbSys
    /\ Database.getDatabase dbSys "cmd_lists" = Some dbRet
    /\ ((Database._data dbRet = None
         /\ tr = [failure_line this]
         /\ this' = CommandProperty.assign_lists this (Some mgr) []
                      (CommandProperty._blacklist this))
        \/ (exists db,
              Database._data dbRet = Some db
              /\ db !! CommandProperty._command this = None
              /\ this' =
                 CommandProperty.assign_lists this
                   (Some (Manager.setSystem mgr "Database"
                            (Database.store dbSys "cmd_lists"
                               {| Database._data :=
                                    Some (<[CommandProperty._command this :=
                                              {| Database.whitelist :=
                                                   CommandProperty._whitelist this;
                                                 Database.blacklist :=
                                                   CommandProperty._blacklist this |}]>
                                            db) |})))
                   (CommandProperty._whitelist this)
                   (CommandProperty._blacklist this))
        \/ (exists db perms,
              Database._data dbRet = Some db
              /\ db !! CommandProperty._command this = Some perms
              /\ tr = [loaded_line this]
              /\ this' = CommandProperty.assign_lists this (Some mgr)
                           (Database.whitelist perms)
                           (Database.blacklist perms))).
Proof.
  intros Hfinish. unfold CommandProperty.finish in Hfinish.
  destruct (CommandProperty._manager this) as [mgr |] eqn:Hm.
  2: { rewrite (updatePermissions_undefined_manager _ Hm) in Hfinish.
       discriminate Hfinish. }
  destruct (Manager.getSystem mgr "Database") as [dbSys |] eqn:Hs.
  2: { unfold CommandProperty._updatePermissions in Hfinish.
       rewrite Hm in Hfinish; simpl in Hfinish.
       rewrite Hs in Hfinish. discriminate Hfinish. }
  destruct (Database.getDatabase dbSys "cmd_lists") as [dbRet |] eqn:Hd.
  2: { unfold CommandProperty._updatePermissions in Hfinish.
       rewrite Hm in Hfinish; simpl in Hfinish.
       rewrite Hs in Hfinish; simpl in Hfinish.
       rewrite Hd in Hfinish. discriminate Hfinish. }
  exists mgr, dbSys, dbRet.
  split; [reflexivity |]. split; [exact Hs |]. split; [exact Hd |].
  destruct (Database._data dbRet) as [db |] eqn:Hdata.
  - destruct (db !! CommandProperty._command this) as [perms |] eqn:Hrec.
    + right; right. exists db, perms.
      rewrite (updatePermissions_loaded _ _ _ _ _ Hm Hs Hd Hdata _ Hrec)
        in Hfinish.
      injection Hfinish as <- <-.
      repeat split; try assumption.
    + right; left. exists db.
      rewrite (updatePermissions_created _ _ _ _ _ Hm Hs Hd Hdata Hrec)
        in Hfinish.
      injection Hfinish as <- <-.
      repeat split; try assumption.
  - left.
    rewrite (updatePermissions_no_data _ _ _ _ Hm Hs Hd Hdata) in Hfinish.
    injection Hfinish as <- <-.
      repeat split; try assumption.
Qed.

(** X15.  [finish()] is idempotent on the object: run again on the object
    it returned, it returns the same object, writes one log line and does
    not commit. *)
Theorem finish_idempotent (this this' : CommandProperty.t)
    (tr : list Event) :
  CommandProperty.finish this = (tr, inr this') ->
  exists tr',
    CommandProperty.finish this' = (tr', inr this')
    /\ (tr' = [failure_line this'] \/ tr' = [loaded_line this'])
    /\ existsb is_commit tr' = false.
Proof.
  intros Hfinish.
  destruct (finish_returns_cases _ _ _ Hfinish)
    as (mgr & dbSys & dbRet & Hm & Hs & Hd
        & [(Hdata & _ & Heq) | [(db & Hdata & Hrec & Heq)
                               | (db & perms & Hdata & Hrec & _ & Heq)]]).
  - exists [failure_line this']. split; [| split; [now left | reflexivity]].
    assert (Hm' : CommandProperty._manager this' = Some mgr)
      by now rewrite Heq.
    unfold CommandProperty.finish.
    rewrite (updatePermissions_no_data this' mgr dbSys dbRet Hm' Hs Hd Hdata).
    simpl. now rewrite Heq.
  - set (seed := {| Database.whitelist := CommandProperty._whitelist this;
                    Database.blacklist := CommandProperty._blacklist this |})
      in *.
    set (db' := <[CommandProperty._command this := seed]> db) in *.
    set (written := {| Database._data := Some db' |}) in *.
    set (dbSys' := Database.store dbSys "cmd_lists" written) in *.
    set (mgr' := Manager.setSystem mgr "Database" dbSys') in *.
    assert (Hm' : CommandProperty._manager this' = Some mgr')
      by now rewrite Heq.
    assert (Hs' : Manager.getSystem mgr' "Database" = Some dbSys')
      by apply lookup_insert_eq.
    assert (Hd' : Database.getDatabase dbSys' "cmd_lists" = Some written)
      by apply lookup_insert_eq.
    assert (Hrec' : db' !! CommandProperty._command this' = Some seed).
    { rewrite Heq; simpl. apply lookup_insert_eq. }
    exists [loaded_line this']. split; [| split; [now right | reflexivity]].
    unfold CommandProperty.finish.
    rewrite (updatePermissions_loaded this' mgr' dbSys' written db'
               Hm' Hs' Hd' eq_refl seed Hrec').
    simpl. now rewrite Heq.
  - exists [loaded_line this']. split; [| split; [now right | reflexivity]].
    assert (Hm' : CommandProperty._manager this' = Some mgr)
      by now rewrite Heq.
    assert (Hrec' : db !! CommandProperty._command this' = Some perms)
      by now rewrite Heq.
    unfold CommandProperty.finish.
    rewrite (updatePermissions_loaded this' mgr dbSys dbRet db Hm' Hs Hd
               Hdata perms Hrec').
    simpl. now rewrite Heq.
Qed.

(** Witness: the first load creates the record of ["ping"]; the second
    load returns the same object. *)
Lemma finish_idempotent_witness :
  exists loaded tr',
    outcome (CommandProperty.finish (SampleStore.wired_to SampleStore.fresh))
    = inr loaded
    /\ CommandProperty.finish loaded = (tr', inr loaded)
    /\ existsb is_commit tr' = false.
Proof.
  destruct (finish_idempotent (SampleStore.wired_to SampleStore.fresh)
              _ _ eq_refl) as (tr' & Hagain & _ & Hquiet).
  eexists. exists tr'. split; [reflexivity | split; [exact Hagain |]].
  exact Hquiet.
Defined.

(** X16.  Whenever [finish()] returns, the settings of the object
    ([minArgs], [maxArgs], [allowDM], [fixedPermissions], [useWhitelist])
    and the command name are as before: the load touches the two lists
    only. *)
Theorem finish_keeps_settings (this this' : CommandProperty.t)
    (tr : list Event) :
  CommandProperty.finish this = (tr, inr this') ->
  CommandProperty._command this' = CommandProperty._command this
  /\ CommandProperty._minArgs this' = CommandProperty._minArgs this
  /\ CommandProperty._maxArgs this' = CommandProperty._maxArgs this
  /\ CommandProperty._allowDM this' = CommandProperty._allowDM this
  /\ CommandProperty._fixedPermissions this'
     = CommandProperty._fixedPermissions this
  /\ CommandProperty._useWhitelist this'
     = CommandProperty._useWhitelist this.
Proof.
  intros Hfinish.
  destruct (finish_returns_cases _ _ _ Hfinish)
    as (mgr & dbSys & dbRet & _ & _ & _
        & [(_ & _ & ->) | [(db & _ & _ & ->)
                          | (db & perms & _ & _ & _ & ->)]]);
    repeat split.
Qed.

(** Witness: bounds set before the load are there after it. *)
Lemma finish_keeps_settings_witness :
  exists loaded,
    outcome (CommandProperty.finish
               (CommandProperty.setArgs
                  (SampleStore.wired_to SampleStore.filled) 1 2))
    = inr loaded
    /\ CommandProperty._minArgs loaded = 1
    /\ CommandProperty._maxArgs loaded = 2.
Proof.
  destruct (finish_keeps_settings
              (CommandProperty.setArgs
                 (SampleStore.wired_to SampleStore.filled) 1 2)
              _ _ eq_refl) as (_ & Hmin & Hmax & _).
  eexists. split; [reflexivity | split; [exact Hmin | exact Hmax]].
Defined.

(* ===================================================================== *)
(** ** Utils.log: shifting the arguments *)
(* ===================================================================== *)

Lemma shift_loop_lookup count : forall i (arguments : list Js.Value) j,
  Utils.shift_loop count i arguments !! j
  = if decide ((i <= j < i + count)%nat /\ (j < List.length arguments)%nat)
    then Some (Utils.argument_at arguments (S j))
    else arguments !! j.
Proof.
  induction count as [| count IH]; intros i arguments j; simpl.
  - case_decide; [lia | reflexivity].
  - rewrite IH, length_insert.
    destruct (decide (j = i)) as [-> | Hne].
    + case_decide; [lia |].
      case_decide.
      * apply list_lookup_insert_eq. lia.
      * rewrite list_insert_ge by lia. reflexivity.
    + rewrite list_lookup_insert_ne by congruence.
      unfold Utils.argument_at.
      repeat case_decide; try lia; try reflexivity.
      rewrite list_lookup_insert_ne by lia. reflexivity.
Qed.

(** X17.  The loop of [Utils.log] that shifts [arguments] down by one,
    followed by the decrement of [arguments.length], leaves exactly the
    arguments after the first, in their order; for a call without
    arguments it leaves nothing.  So [log] writes the label and hands the
    remaining arguments to [console.log]. *)
Theorem shift_arguments_drops_first (arguments : list Js.Value) :
  Utils.shift_arguments arguments = tl arguments
  /\ exists provClass,
       Utils.log arguments
       = ([Stdout provClass (Utils.shift_arguments arguments)], inr tt).
Proof.
  assert (Hshift : Utils.shift_arguments arguments = tl arguments).
  { unfold Utils.shift_arguments. apply list_eq. intros j.
    rewrite lookup_tail.
    destruct (decide (j < List.length arguments - 1)%nat) as [Hlt | Hge].
    - rewrite lookup_take_lt by exact Hlt.
      rewrite shift_loop_lookup. case_decide; [| lia].
      unfold Utils.argument_at.
      destruct (lookup_lt_is_Some_2 arguments (S j)) as [x ->]; [lia |].
      reflexivity.
    - rewrite lookup_take_ge by lia.
      symmetry. apply lookup_ge_None_2. lia. }
  split; [exact Hshift |].
  eexists. unfold Utils.log, emit. now rewrite Hshift.
Qed.

(* ===================================================================== *)
(** ** Runs of the earlier statements *)
(* ===================================================================== *)

(** Witness: a global [checkProperties] that answers with a word; [exec]
    sends one error reply to the channel and returns [false]. *)
Lemma exec_bound_checkProperties_witness :
  DefaultCommand.exec SampleStore.to_number SampleStore.refusing_global
    (Sample.command Sample.defaults) Sample.message []
  = ([ChannelSend "500" (ErrorReply_error (Js.Str "denied"))],
     inr (Js.Bool false)).
Proof.
  exact (exec_bound_checkProperties SampleStore.to_number
           SampleStore.refusing_global (Sample.command Sample.defaults)
           Sample.message [] [] (Js.Str "denied") eq_refl).
Defined.

(** Witness: the owner is whitelisted and blacklisted as a user. *)
Lemma blacklisted_user_denied_witness :
  DefaultCommand.checkProperties Sample.errors
    (Sample.command SampleStore.owner_blacklisted) Sample.message []
  = Js.Str (Errors.blacklistedUser Sample.errors).
Proof.
  apply (blacklisted_user_denied Sample.errors
           (Sample.command SampleStore.owner_blacklisted) Sample.message []).
  - exists (Sample.user_entry "1000"). simpl. auto.
  - intros (e & [<- | []] & Ht & _). discriminate Ht.
Defined.
